(** * GutFlow: a shallow embedding of the digestion simulation core

    This file embeds the simulation core of [GutFlow.py] (the classes
    [Microbiome], [Food], [Environment], [Conditions], the organ classes,
    [Body] and the command handling of [main_loop]) and proves properties
    of it.

    Modelling choices:
    - Python [float] fields are modelled as exact rationals [Q].  The one
      place where the rounding of double precision changes a discrete
      outcome is [int(...)] in [Stomach.start_digestion]; that expression is
      evaluated with [b64], rounding to the nearest binary64 value after
      each operation, as CPython does.
    - Food objects are mutable and shared in the source ([Mouth.process]
      mutates [body.food] in place, [Stomach.digest_tick] hands its own
      object back to [Body]).  They live in an explicit [heap] of objects
      indexed by [loc]; [Body], [Stomach] and [SmallIntestine] hold
      references.
    - A Python exception escaping [Body.tick] is [None]. *)

From Stdlib Require Import ZArith QArith Qround Qminmax Lia Lqa List String Bool.
Import ListNotations.

Open Scope Z_scope.

(* ------------------------------------------------------------------ *)
(** ** Python numeric helpers *)

(** [a < b] on floats. *)
Definition qltb (a b : Q) : bool := negb (Qle_bool b a).

(** Python's [min(a, b)] keeps [a] unless [b < a]; [max] dually. *)
Definition py_min (a b : Q) : Q := if qltb b a then b else a.
Definition py_max (a b : Q) : Q := if qltb a b then b else a.

(** [int(x)]: truncation toward zero. *)
Definition py_int (x : Q) : Z :=
  if Qle_bool 0 x then Qfloor x else - Qfloor (- x).

(** [2 ^ z] as a rational, for any integer [z]. *)
Definition pow2q (z : Z) : Q :=
  if 0 <=? z then inject_Z (2 ^ z) else 1 # Z.to_pos (2 ^ (- z)).

(** Round to the nearest integer, ties to even. *)
Definition round_half_even (x : Q) : Z :=
  let f := Qfloor x in
  let d := (x - inject_Z f)%Q in
  if qltb d (1 # 2) then f
  else if qltb (1 # 2) d then f + 1
  else if Z.even f then f else f + 1.

(** Rounding of a positive rational to the nearest binary64 value
    (53-bit significand, ties to even; the exponents met here are far
    from overflow and underflow). *)
Definition b64_pos (q : Q) : Q :=
  let e0 := Z.log2 (Qnum q) - Z.log2 (Zpos (Qden q)) in
  let k := if Qle_bool (pow2q e0) q then e0 else e0 - 1 in
  let r := round_half_even (q * pow2q (52 - k)) in
  (inject_Z r * pow2q (k - 52))%Q.

Definition b64 (q : Q) : Q :=
  if qltb 0 q then b64_pos q
  else if qltb q 0 then (- b64_pos (- q))%Q
  else 0%Q.

(** Double-precision operations. *)
Definition fmul (a b : Q) : Q := b64 (a * b).
Definition fdiv (a b : Q) : Q := b64 (a / b).

(** Python's [round(x, 2)] (ties to even on the value itself). *)
Definition round2 (x : Q) : Q := (inject_Z (round_half_even (x * 100)) / 100)%Q.

(* ------------------------------------------------------------------ *)
(** ** Data structures *)

(** [TIME_MAP] *)
Definition TIME_MAP_Stomach : Z := 6.
Definition TIME_MAP_Duodenum : Z := 2.
Definition TIME_MAP_SmallIntestine : Z := 18.
Definition TIME_MAP_LargeIntestine : Z := 36.

Record Food := mkFood {
  name : string;
  carbs : Q;
  proteins : Q;
  fats : Q;
  fiber : Q
}.

Record Environment := mkEnvironment {
  temperature_c : Q;
  stress_level : Z
}.

Record Conditions := mkConditions {
  gastroparesis : bool;
  gerd : bool;
  malabsorption : bool;
  diabetes : bool;
  obesity : bool
}.

Record Microbiome := mkMicrobiome {
  good_bacteria : Q;
  bad_bacteria : Q;
  fiber_intake : Q;
  antibiotic : bool
}.

Definition Microbiome_new : Microbiome := mkMicrobiome 70 30 0 false.

(** [Microbiome.tick]; [Qred] only normalises the representation of the
    rationals ([Qred q == q]). *)
Definition Microbiome_tick (m : Microbiome) : Microbiome :=
  let '(g, b) :=
    if qltb 0 (fiber_intake m)
    then (py_min 100 (good_bacteria m + 1.2), py_max 0 (bad_bacteria m - 0.6))
    else (good_bacteria m, bad_bacteria m) in
  let '(g, b) :=
    if antibiotic m then (py_max 0 (g - 5.0), py_max 0 (b - 2.0)) else (g, b) in
  let total := (g + b)%Q in
  let '(g, b) :=
    if qltb 0 total then (Qred (g / total * 100), Qred (b / total * 100)) else (g, b) in
  mkMicrobiome g b (fiber_intake m) (antibiotic m).

(** The qualitative hormone levels used by the source. *)
Inductive level := Normal | High | Low | Slight | Impaired.

Definition level_eqb (a b : level) : bool :=
  match a, b with
  | Normal, Normal | High, High | Low, Low
  | Slight, Slight | Impaired, Impaired => true
  | _, _ => false
  end.

(** The hormone dict: its five keys are set in [Body.__init__] and are
    only ever overwritten, so it is a record. *)
Record Hormones := mkHormones {
  parasympathetic_stim : level;
  gastrin : level;
  ghrelin : level;
  insulin : level;
  leptin : level
}.

Definition set_parasym (hs : Hormones) (v : level) : Hormones :=
  mkHormones v (gastrin hs) (ghrelin hs) (insulin hs) (leptin hs).
Definition set_gastrin (hs : Hormones) (v : level) : Hormones :=
  mkHormones (parasympathetic_stim hs) v (ghrelin hs) (insulin hs) (leptin hs).
Definition set_ghrelin (hs : Hormones) (v : level) : Hormones :=
  mkHormones (parasympathetic_stim hs) (gastrin hs) v (insulin hs) (leptin hs).
Definition set_insulin (hs : Hormones) (v : level) : Hormones :=
  mkHormones (parasympathetic_stim hs) (gastrin hs) (ghrelin hs) v (leptin hs).
Definition set_leptin (hs : Hormones) (v : level) : Hormones :=
  mkHormones (parasympathetic_stim hs) (gastrin hs) (ghrelin hs) (insulin hs) v.

(** ** The object store for [Food] instances *)

Definition loc := nat.

Record heap := mkHeap {
  objs : loc -> Food;
  next_loc : loc
}.

Definition read (h : heap) (l : loc) : Food := objs h l.

(** Mutating the object at [l] (an attribute assignment on it). *)
Definition write (h : heap) (l : loc) (f : Food) : heap :=
  mkHeap (fun l' => if Nat.eqb l' l then f else objs h l') (next_loc h).

(** [Food(...)]: a new object. *)
Definition alloc (h : heap) (f : Food) : loc * heap :=
  (next_loc h,
   mkHeap (fun l' => if Nat.eqb l' (next_loc h) then f else objs h l')
          (S (next_loc h))).

(** [Food(name=food.name, carbs=food.carbs, ...)] *)
Definition copy_food (f : Food) : Food :=
  mkFood (name f) (carbs f) (proteins f) (fats f) (fiber f).

(* ------------------------------------------------------------------ *)
(** ** Organs *)

(** The absorbed-nutrient dict [{'carbs': .., 'proteins': .., 'fats': ..}]. *)
Record Absorbed := mkAbsorbed {
  ab_carbs : Q;
  ab_proteins : Q;
  ab_fats : Q
}.

(** The dicts the organ methods return to [Body.tick]. *)
Inductive info :=
| InfoStatus (status : string)
| InfoSaliva (desc : string) (saliva_factor : Q)
| InfoDesc (desc : string)
| InfoTimer (desc : string) (timer : Z)
| InfoRunning (remaining_ticks : Z)
| InfoStomachDone (finished_food : option loc)
| InfoDone
| InfoAbsorbed (status : string) (absorbed : Absorbed).

(** [Mouth.process]: mutates the food object in place. *)
Definition Mouth_process (h : heap) (l : loc) (hs : Hormones) (env : Environment)
  : heap * info :=
  let parasym := parasympathetic_stim hs in
  let stress := stress_level env in
  let saliva_factor :=
    if level_eqb parasym High && (stress <? 6) then 1.15%Q
    else if level_eqb parasym Low || (6 <=? stress) then 0.75%Q
    else 1.0%Q in
  let f := read h l in
  let f' := mkFood (name f) (py_max 0 (carbs f * (1.0 - 0.05 * saliva_factor)))
                   (proteins f) (fats f) (fiber f) in
  (write h l f', InfoSaliva "Chewing and salivary amylase" saliva_factor).

(** [Esophagus.transport] *)
Definition Esophagus_transport (env : Environment) : info :=
  InfoDesc "Peristalsis moves bolus to stomach".

Record Stomach := mkStomach {
  st_timer : Z;
  st_food : option loc;
  gastrin_factor : Q
}.

(** [Stomach()]: [base_timer] is the constant [TIME_MAP['Stomach']]. *)
Definition Stomach_new : Stomach := mkStomach TIME_MAP_Stomach None 1.0.
Definition Stomach_base_timer : Z := TIME_MAP_Stomach.

(** The factors of [Stomach.start_digestion], as double literals. *)
Definition stomach_gastrin_factor (hs : Hormones) : Q :=
  if level_eqb (gastrin hs) High then b64 1.3
  else if level_eqb (gastrin hs) Low then b64 0.75
  else 1.0.

Definition stomach_stress_factor (env : Environment) : Q :=
  if stress_level env <? 6 then 1.0 else b64 0.85.

Definition stomach_temp_factor (env : Environment) : Q :=
  if qltb (temperature_c env) 36.0 then b64 0.9
  else if qltb 38.0 (temperature_c env) then b64 1.05
  else 1.0.

Definition stomach_disease_factor (cond : Conditions) : Q :=
  let d := 1.0%Q in
  let d := if gastroparesis cond then fmul d (b64 1.8) else d in
  if gerd cond then fmul d (b64 1.05) else d.

Definition stomach_hunger_factor (hs : Hormones) : Q :=
  if level_eqb (ghrelin hs) High then b64 0.9 else 1.0.

(** [computed = max(2, int(self.base_timer / (gastrin_factor * temp_factor
    * hunger_factor) * disease_factor / stress_factor))], in doubles. *)
Definition stomach_computed (g t hu d s : Q) : Z :=
  Z.max 2 (py_int (fdiv (fmul (fdiv (inject_Z Stomach_base_timer)
                                        (fmul (fmul g t) hu)) d) s)).

Definition stomach_duration (hs : Hormones) (cond : Conditions) (env : Environment) : Z :=
  stomach_computed (stomach_gastrin_factor hs) (stomach_temp_factor env)
    (stomach_hunger_factor hs) (stomach_disease_factor cond)
    (stomach_stress_factor env).

(** [Stomach.start_digestion]: the timer is set, then the food copied; a
    [None] food raises on [food.name]. *)
Definition Stomach_start_digestion (s : Stomach) (h : heap) (food : option loc)
  (hs : Hormones) (cond : Conditions) (env : Environment)
  : option (heap * Stomach * info) :=
  let computed := stomach_duration hs cond env in
  match food with
  | None => None
  | Some l =>
      let '(l', h') := alloc h (copy_food (read h l)) in
      Some (h', mkStomach computed (Some l') (stomach_gastrin_factor hs),
            InfoTimer "Stomach acid and pepsin" computed)
  end.

(** Result of the countdown organs: still running, or finished. *)
Inductive st_result :=
| StRunning (remaining_ticks : Z)
| StFinished (finished_food : option loc).

(** [Stomach.digest_tick]: a [Food] object is always truthy, so
    [if self.food] is [is not None]. *)
Definition Stomach_digest_tick (s : Stomach) (h : heap) : heap * Stomach * st_result :=
  if 0 <? st_timer s then
    (h, mkStomach (st_timer s - 1) (st_food s) (gastrin_factor s),
     StRunning (st_timer s - 1))
  else
    match st_food s with
    | Some l =>
        let f := read h l in
        let f' := mkFood (name f) (carbs f)
                    (py_max 0 (proteins f * 0.5 * gastrin_factor s))
                    (fats f) (fiber f) in
        (write h l f', mkStomach (st_timer s) None (gastrin_factor s),
         StFinished (Some l))
    | None => (h, mkStomach (st_timer s) None (gastrin_factor s), StFinished None)
    end.

Record Duodenum := mkDuodenum { du_timer : Z }.

Definition Duodenum_new : Duodenum := mkDuodenum TIME_MAP_Duodenum.

(** [Duodenum.process_tick]: [None] stands for [{'running': False}]. *)
Definition Duodenum_process_tick (d : Duodenum) (hs : Hormones) : Duodenum * option Z :=
  if 0 <? du_timer d then (mkDuodenum (du_timer d - 1), Some (du_timer d - 1))
  else (d, None).

Record SmallIntestine := mkSmallIntestine {
  si_timer : Z;
  si_food : option loc
}.

Definition SmallIntestine_new : SmallIntestine :=
  mkSmallIntestine TIME_MAP_SmallIntestine None.
Definition SmallIntestine_base_timer : Z := TIME_MAP_SmallIntestine.

(** [SmallIntestine.start_absorption]: a [None] food raises. *)
Definition SmallIntestine_start_absorption (si : SmallIntestine) (h : heap)
  (food : option loc) (hs : Hormones) : option (heap * SmallIntestine * info) :=
  match food with
  | None => None
  | Some l =>
      let '(l', h') := alloc h (copy_food (read h l)) in
      Some (h', mkSmallIntestine (si_timer si) (Some l'),
            InfoTimer "Brush border enzymes active" (si_timer si))
  end.

Inductive si_result :=
| SIRunning (remaining_ticks : Z)
| SIDone (absorbed : Absorbed) (energy_kcal : Q).

(** [SmallIntestine.absorb_tick]: once the timer is out, [self.food.carbs]
    raises when no food is stored. *)
Definition SmallIntestine_absorb_tick (si : SmallIntestine) (h : heap)
  (cond : Conditions) (env : Environment) (hs : Hormones)
  : option (SmallIntestine * si_result) :=
  if 0 <? si_timer si then
    Some (mkSmallIntestine (si_timer si - 1) (si_food si), SIRunning (si_timer si - 1))
  else
    match si_food si with
    | None => None
    | Some l =>
        let f := read h l in
        let malabs_factor := if malabsorption cond then 0.65%Q else 1.0%Q in
        let insulin_resistance :=
          if diabetes cond || obesity cond then 0.75%Q else 1.0%Q in
        let absorbed := mkAbsorbed
          (py_max 0 (carbs f * 0.95 * malabs_factor))
          (py_max 0 (proteins f * 0.9 * malabs_factor))
          (py_max 0 (fats f * 0.85 * malabs_factor)) in
        let energy_kcal :=
          ((ab_carbs absorbed * 4 + ab_proteins absorbed * 4 + ab_fats absorbed * 9)
           * insulin_resistance)%Q in
        Some (si, SIDone absorbed energy_kcal)
    end.

Record LargeIntestine := mkLargeIntestine { li_timer : Z }.

Definition LargeIntestine_new : LargeIntestine := mkLargeIntestine TIME_MAP_LargeIntestine.

(** [LargeIntestine.tick]: [None] stands for [{'running': False}]. *)
Definition LargeIntestine_tick (li : LargeIntestine) : LargeIntestine * option Z :=
  if 0 <? li_timer li then (mkLargeIntestine (li_timer li - 1), Some (li_timer li - 1))
  else (li, None).

(* ------------------------------------------------------------------ *)
(** ** Body *)

Inductive stage :=
| idle | mouth | esophagus | stomach | duodenum
| small_intestine | large_intestine | rectum.

Definition stage_eqb (a b : stage) : bool :=
  match a, b with
  | idle, idle | mouth, mouth | esophagus, esophagus | stomach, stomach
  | duodenum, duodenum | small_intestine, small_intestine
  | large_intestine, large_intestine | rectum, rectum => true
  | _, _ => false
  end.

(** [self.prev_stage != self.stage], with [prev_stage = None] at start. *)
Definition stage_changed (prev : option stage) (s : stage) : bool :=
  match prev with
  | Some p => negb (stage_eqb p s)
  | None => true
  end.

(** The [Body.metabolize] result dict. *)
Record Metabolism := mkMetabolism {
  m_glycogen : Q;
  m_fat_storage : Q;
  m_protein_use : Q;
  m_energy_added : Q;
  m_total_energy : Q
}.

Record Body := mkBody {
  env : Environment;
  cond : Conditions;
  microbiome : Microbiome;
  hormones : Hormones;
  hunger_level : Z;
  energy : Q;
  stage_of : stage;
  prev_stage : option stage;
  ticks : Z;
  total_ticks : Z;
  food : option loc;
  current_absorbed : option Absorbed;
  metabolism : option Metabolism;
  stomach_of : Stomach;
  duodenum_of : Duodenum;
  small_intestine_of : SmallIntestine;
  large_intestine_of : LargeIntestine
}.

(** [Body.__init__] *)
Definition Body_new (e : Environment) (c : Conditions) : Body :=
  mkBody e c Microbiome_new (mkHormones Normal Normal Normal Normal Normal)
    5 0 idle None 0 0 None None None
    Stomach_new Duodenum_new SmallIntestine_new LargeIntestine_new.

(** Field assignments on a [Body]. *)
Definition set_env (b : Body) (x : Environment) : Body :=
  mkBody x (cond b) (microbiome b) (hormones b) (hunger_level b) (energy b)
    (stage_of b) (prev_stage b) (ticks b) (total_ticks b) (food b)
    (current_absorbed b) (metabolism b) (stomach_of b) (duodenum_of b)
    (small_intestine_of b) (large_intestine_of b).
Definition set_cond (b : Body) (x : Conditions) : Body :=
  mkBody (env b) x (microbiome b) (hormones b) (hunger_level b) (energy b)
    (stage_of b) (prev_stage b) (ticks b) (total_ticks b) (food b)
    (current_absorbed b) (metabolism b) (stomach_of b) (duodenum_of b)
    (small_intestine_of b) (large_intestine_of b).
Definition set_microbiome (b : Body) (x : Microbiome) : Body :=
  mkBody (env b) (cond b) x (hormones b) (hunger_level b) (energy b)
    (stage_of b) (prev_stage b) (ticks b) (total_ticks b) (food b)
    (current_absorbed b) (metabolism b) (stomach_of b) (duodenum_of b)
    (small_intestine_of b) (large_intestine_of b).
Definition set_hormones (b : Body) (x : Hormones) : Body :=
  mkBody (env b) (cond b) (microbiome b) x (hunger_level b) (energy b)
    (stage_of b) (prev_stage b) (ticks b) (total_ticks b) (food b)
    (current_absorbed b) (metabolism b) (stomach_of b) (duodenum_of b)
    (small_intestine_of b) (large_intestine_of b).
Definition set_hunger_level (b : Body) (x : Z) : Body :=
  mkBody (env b) (cond b) (microbiome b) (hormones b) x (energy b)
    (stage_of b) (prev_stage b) (ticks b) (total_ticks b) (food b)
    (current_absorbed b) (metabolism b) (stomach_of b) (duodenum_of b)
    (small_intestine_of b) (large_intestine_of b).
Definition set_energy (b : Body) (x : Q) : Body :=
  mkBody (env b) (cond b) (microbiome b) (hormones b) (hunger_level b) x
    (stage_of b) (prev_stage b) (ticks b) (total_ticks b) (food b)
    (current_absorbed b) (metabolism b) (stomach_of b) (duodenum_of b)
    (small_intestine_of b) (large_intestine_of b).
Definition set_stage (b : Body) (x : stage) : Body :=
  mkBody (env b) (cond b) (microbiome b) (hormones b) (hunger_level b) (energy b)
    x (prev_stage b) (ticks b) (total_ticks b) (food b)
    (current_absorbed b) (metabolism b) (stomach_of b) (duodenum_of b)
    (small_intestine_of b) (large_intestine_of b).
Definition set_prev_stage (b : Body) (x : option stage) : Body :=
  mkBody (env b) (cond b) (microbiome b) (hormones b) (hunger_level b) (energy b)
    (stage_of b) x (ticks b) (total_ticks b) (food b)
    (current_absorbed b) (metabolism b) (stomach_of b) (duodenum_of b)
    (small_intestine_of b) (large_intestine_of b).
Definition set_ticks (b : Body) (x y : Z) : Body :=
  mkBody (env b) (cond b) (microbiome b) (hormones b) (hunger_level b) (energy b)
    (stage_of b) (prev_stage b) x y (food b)
    (current_absorbed b) (metabolism b) (stomach_of b) (duodenum_of b)
    (small_intestine_of b) (large_intestine_of b).
Definition set_food (b : Body) (x : option loc) : Body :=
  mkBody (env b) (cond b) (microbiome b) (hormones b) (hunger_level b) (energy b)
    (stage_of b) (prev_stage b) (ticks b) (total_ticks b) x
    (current_absorbed b) (metabolism b) (stomach_of b) (duodenum_of b)
    (small_intestine_of b) (large_intestine_of b).
Definition set_current_absorbed (b : Body) (x : option Absorbed) : Body :=
  mkBody (env b) (cond b) (microbiome b) (hormones b) (hunger_level b) (energy b)
    (stage_of b) (prev_stage b) (ticks b) (total_ticks b) (food b)
    x (metabolism b) (stomach_of b) (duodenum_of b)
    (small_intestine_of b) (large_intestine_of b).
Definition set_metabolism (b : Body) (x : option Metabolism) : Body :=
  mkBody (env b) (cond b) (microbiome b) (hormones b) (hunger_level b) (energy b)
    (stage_of b) (prev_stage b) (ticks b) (total_ticks b) (food b)
    (current_absorbed b) x (stomach_of b) (duodenum_of b)
    (small_intestine_of b) (large_intestine_of b).
Definition set_organs (b : Body) (s : Stomach) (d : Duodenum)
  (si : SmallIntestine) (li : LargeIntestine) : Body :=
  mkBody (env b) (cond b) (microbiome b) (hormones b) (hunger_level b) (energy b)
    (stage_of b) (prev_stage b) (ticks b) (total_ticks b) (food b)
    (current_absorbed b) (metabolism b) s d si li.
Definition set_stomach (b : Body) (x : Stomach) : Body :=
  set_organs b x (duodenum_of b) (small_intestine_of b) (large_intestine_of b).
Definition set_duodenum (b : Body) (x : Duodenum) : Body :=
  set_organs b (stomach_of b) x (small_intestine_of b) (large_intestine_of b).
Definition set_small_intestine (b : Body) (x : SmallIntestine) : Body :=
  set_organs b (stomach_of b) (duodenum_of b) x (large_intestine_of b).
Definition set_large_intestine (b : Body) (x : LargeIntestine) : Body :=
  set_organs b (stomach_of b) (duodenum_of b) (small_intestine_of b) x.

(** [Body.set_hunger_from_flags] *)
Definition set_hunger_from_flags (b : Body) : Body :=
  if obesity (cond b) then
    let b := set_hormones b (set_leptin (hormones b) High) in
    let b := set_hunger_level b (Z.max 1 (hunger_level b - 2)) in
    set_hormones b (set_ghrelin (hormones b) Low)
  else if 7 <=? hunger_level b then set_hormones b (set_ghrelin (hormones b) High)
  else set_hormones b (set_ghrelin (hormones b) Low).

(** [Body.eat]: the caller's food object is at [l]; a new object is made. *)
Definition eat (h : heap) (b : Body) (l : loc) : heap * Body :=
  let '(l', h') := alloc h (copy_food (read h l)) in
  let b := set_food b (Some l') in
  let b := set_stage b mouth in
  let b := set_hormones b (set_ghrelin (hormones b) Low) in
  let b := set_hunger_level b (Z.max 0 (hunger_level b - 3)) in
  (h', set_hormones b (set_insulin (hormones b) Slight)).

(** The local variables of [Body.metabolize]. *)
Definition metabolize_parts (a : Absorbed) : Q * Q * Q * Q :=
  let glycogen := py_min 100 (ab_carbs a * 0.6) in
  let fat_storage := (ab_fats a * 0.7)%Q in
  let protein_use := (ab_proteins a * 0.8)%Q in
  let energy_added := (glycogen * 4 + protein_use * 4 + fat_storage * 9)%Q in
  (glycogen, fat_storage, protein_use, energy_added).

(** [Body.metabolize] *)
Definition metabolize (b : Body) (a : Absorbed) : Body * Metabolism :=
  let '(glycogen, fat_storage, protein_use, energy_added) := metabolize_parts a in
  let b := set_energy b (energy b + energy_added)%Q in
  (b, mkMetabolism (round2 glycogen) (round2 fat_storage) (round2 protein_use)
        (round2 energy_added) (round2 (energy b))).

(** [Body._update_hormones_on_stage_entry] *)
Definition update_hormones_on_stage_entry (b : Body) : Body :=
  let hs := hormones b in
  let stress := stress_level (env b) in
  match stage_of b with
  | mouth =>
      let hs := set_parasym hs (if stress <? 6 then High else Normal) in
      let hs := if level_eqb (insulin hs) High then hs else set_insulin hs Slight in
      set_hormones b hs
  | esophagus => set_hormones b (set_parasym hs Normal)
  | stomach =>
      let hs := set_gastrin hs High in
      let hs := set_ghrelin hs Low in
      set_hormones b (set_parasym hs (if stress <? 6 then High else Low))
  | duodenum => set_hormones b (set_gastrin hs Normal)
  | small_intestine =>
      let hs := set_insulin hs (if diabetes (cond b) then Impaired else High) in
      set_hormones b (set_parasym hs (if 6 <=? stress then Normal else High))
  | large_intestine =>
      let hs := set_insulin hs Normal in
      set_hormones b (set_gastrin hs Low)
  | rectum => set_hormones b (set_parasym hs Normal)
  | idle => b
  end.

(** The [Food(name='chyme', ...)] placeholder. *)
Definition chyme_placeholder : Food := mkFood "chyme" 0 0 0 0.

(** The stage dispatch of [Body.tick] (the [if self.stage == ...] chain). *)
Definition dispatch (h : heap) (b : Body) : option (heap * Body * info) :=
  match stage_of b with
  | idle =>
      Some (h, set_hunger_from_flags b, InfoStatus "Idle")
  | mouth =>
      match food b with
      | None => None
      | Some l =>
          let '(h', i) := Mouth_process h l (hormones b) (env b) in
          Some (h', set_stage b esophagus, i)
      end
  | esophagus =>
      let i := Esophagus_transport (env b) in
      Some (h, set_stage b stomach, i)
  | stomach =>
      match st_food (stomach_of b) with
      | None =>
          match Stomach_start_digestion (stomach_of b) h (food b) (hormones b)
                  (cond b) (env b) with
          | None => None
          | Some (h', s', i) => Some (h', set_stomach b s', i)
          end
      | Some _ =>
          let '(h', s', r) := Stomach_digest_tick (stomach_of b) h in
          let b := set_stomach b s' in
          match r with
          | StRunning rem => Some (h', b, InfoRunning rem)
          | StFinished fin =>
              let '(l, h'') :=
                match fin with
                | Some l => (l, h')
                | None => alloc h' chyme_placeholder
                end in
              Some (h'', set_stage (set_food b (Some l)) duodenum, InfoStomachDone fin)
          end
      end
  | duodenum =>
      let '(d', res) := Duodenum_process_tick (duodenum_of b) (hormones b) in
      let b := set_duodenum b d' in
      match res with
      | Some rem => Some (h, b, InfoRunning rem)
      | None =>
          let b := set_stage b small_intestine in
          match SmallIntestine_start_absorption (small_intestine_of b) h (food b)
                  (hormones b) with
          | None => None
          | Some (h', si', i) => Some (h', set_small_intestine b si', i)
          end
      end
  | small_intestine =>
      match SmallIntestine_absorb_tick (small_intestine_of b) h (cond b) (env b)
              (hormones b) with
      | None => None
      | Some (si', SIRunning rem) =>
          Some (h, set_small_intestine b si', InfoRunning rem)
      | Some (si', SIDone absorbed _) =>
          let b := set_small_intestine b si' in
          let b := set_current_absorbed b (Some absorbed) in
          let '(b, m) := metabolize b absorbed in
          let b := set_metabolism b (Some m) in
          Some (h, set_stage b large_intestine,
                InfoAbsorbed "Absorption complete" absorbed)
      end
  | large_intestine =>
      let '(li', res) := LargeIntestine_tick (large_intestine_of b) in
      let b := set_large_intestine b li' in
      match res with
      | Some rem => Some (h, b, InfoRunning rem)
      | None => Some (h, set_stage b rectum, InfoDone)
      end
  | rectum =>
      let b := set_stage b idle in
      let b := set_organs b Stomach_new Duodenum_new SmallIntestine_new
                 LargeIntestine_new in
      let b := set_food b None in
      let b := set_hunger_level b (Z.min 10 (hunger_level b + 4)) in
      Some (h, b, InfoStatus "Defecation complete")
  end.

(** Steps 1 and 2 of [Body.tick]: stress-driven autonomic tone, then the
    stage-entry bookkeeping when the stage changed. *)
Definition tick_enter (b : Body) : Body :=
  let b := set_hormones b (set_parasym (hormones b)
             (if 6 <=? stress_level (env b) then Low else Normal)) in
  if stage_changed (prev_stage b) (stage_of b) then
    let b := set_ticks b 0 (total_ticks b) in
    let b := update_hormones_on_stage_entry b in
    set_prev_stage b (Some (stage_of b))
  else b.

(** Steps 4 and 5 of [Body.tick]: feed and advance the microbiome, count
    the tick. *)
Definition tick_finish (h : heap) (b : Body) : Body :=
  let fib := match food b with Some l => fiber (read h l) | None => 0%Q end in
  let mb := microbiome b in
  let mb := Microbiome_tick (mkMicrobiome (good_bacteria mb) (bad_bacteria mb)
                              fib (antibiotic mb)) in
  let b := set_microbiome b mb in
  set_ticks b (ticks b + 1) (total_ticks b + 1).

(** [Body.tick] *)
Definition tick (h : heap) (b : Body) : option (heap * Body * info) :=
  match dispatch h (tick_enter b) with
  | None => None
  | Some (h', b', i) => Some (h', tick_finish h' b', i)
  end.

(** The command tokens [main_loop] applies to the state before a tick. *)
Inductive command :=
| CmdPause | CmdSkip | CmdStressUp | CmdStressDown | CmdTempUp | CmdTempDown
| CmdObesity | CmdMalabsorption | CmdAntibiotic.

Definition apply_command (c : command) (b : Body) : Body :=
  match c with
  | CmdPause => b
  | CmdSkip =>
      let s := stomach_of b in
      let si := small_intestine_of b in
      set_organs b (mkStomach 0 (st_food s) (gastrin_factor s)) (mkDuodenum 0)
        (mkSmallIntestine 0 (si_food si)) (mkLargeIntestine 0)
  | CmdStressUp =>
      set_env b (mkEnvironment (temperature_c (env b)) (Z.min 10 (stress_level (env b) + 1)))
  | CmdStressDown =>
      set_env b (mkEnvironment (temperature_c (env b)) (Z.max 0 (stress_level (env b) - 1)))
  | CmdTempUp =>
      set_env b (mkEnvironment (temperature_c (env b) + 0.5) (stress_level (env b)))
  | CmdTempDown =>
      set_env b (mkEnvironment (temperature_c (env b) - 0.5) (stress_level (env b)))
  | CmdObesity =>
      let c := cond b in
      set_cond b (mkConditions (gastroparesis c) (gerd c) (malabsorption c)
                    (diabetes c) (negb (obesity c)))
  | CmdMalabsorption =>
      let c := cond b in
      set_cond b (mkConditions (gastroparesis c) (gerd c) (negb (malabsorption c))
                    (diabetes c) (obesity c))
  | CmdAntibiotic =>
      let m := microbiome b in
      set_microbiome b (mkMicrobiome (good_bacteria m) (bad_bacteria m)
                          (fiber_intake m) (negb (antibiotic m)))
  end.

(** One step of the simulation: a tick, a meal, or a command. *)
Inductive sim_step : heap * Body -> heap * Body -> Prop :=
| step_tick h b h' b' i :
    tick h b = Some (h', b', i) -> sim_step (h, b) (h', b')
| step_eat h b l :
    (l < next_loc h)%nat -> sim_step (h, b) (eat h b l)
| step_command h b c :
    sim_step (h, b) (h, apply_command c b).

(** States reachable from a fresh [Body] over any heap. *)
Inductive reachable : heap * Body -> Prop :=
| reach_init h e c : reachable (h, Body_new e c)
| reach_step s s' : reachable s -> sim_step s s' -> reachable s'.

(** [n] ticks in a row, recording the stage each tick dispatches on. *)
Fixpoint run_ticks (n : nat) (h : heap) (b : Body)
  : option (list stage * heap * Body) :=
  match n with
  | O => Some ([], h, b)
  | S n' =>
      match tick h b with
      | None => None
      | Some (h', b', _) =>
          match run_ticks n' h' b' with
          | None => None
          | Some (l, h'', b'') => Some (stage_of b :: l, h'', b'')
          end
      end
  end.

(* ------------------------------------------------------------------ *)
(** ** The stomach-duration formula as the spec states it

    Exact real arithmetic (here: [Q]) and [floor], as in
    [duration = max(2, floor(base / (gastrin_factor * temp_factor *
    hunger_factor) * disease_factor / stress_factor))]. *)
Definition spec_stomach_duration (hs : Hormones) (c : Conditions) (e : Environment) : Z :=
  let gastrin_factor :=
    if level_eqb (gastrin hs) High then 1.3%Q
    else if level_eqb (gastrin hs) Low then 0.75%Q else 1.0%Q in
  let stress_factor := if 6 <=? stress_level e then 0.85%Q else 1.0%Q in
  let temp_factor :=
    if qltb (temperature_c e) 36.0 then 0.9%Q
    else if qltb 38.0 (temperature_c e) then 1.05%Q else 1.0%Q in
  let disease_factor :=
    ((if gastroparesis c then 1.8 else 1.0) * (if gerd c then 1.05 else 1.0))%Q in
  let hunger_factor := if level_eqb (ghrelin hs) High then 0.9%Q else 1.0%Q in
  Z.max 2 (Qfloor (6 / (gastrin_factor * temp_factor * hunger_factor)
                    * disease_factor / stress_factor)).

(** Microbiome states reached from [Microbiome()] by ticks, with any fiber
    intake and antibiotic setting before each tick. *)
Inductive mb_reachable : Microbiome -> Prop :=
| mb_reach_init : mb_reachable Microbiome_new
| mb_reach_tick m fib ab :
    mb_reachable m ->
    mb_reachable (Microbiome_tick (mkMicrobiome (good_bacteria m) (bad_bacteria m) fib ab)).

Definition mb_inv (m : Microbiome) : Prop :=
  (0 <= good_bacteria m /\ 0 <= bad_bacteria m /\
   good_bacteria m + bad_bacteria m == 100)%Q.

(** What [Body.tick] needs of a state not to raise: a food object while
    the meal is in the mouth, esophagus, stomach or duodenum (it is handed
    to [Mouth.process], [Stomach.start_digestion] or
    [SmallIntestine.start_absorption]), and a stored food in the small
    intestine. *)
Definition tick_safe (b : Body) : Prop :=
  match stage_of b with
  | mouth | esophagus | stomach | duodenum => food b <> None
  | small_intestine => si_food (small_intestine_of b) <> None
  | idle | large_intestine | rectum => True
  end.

(** The countdown timer owned by the organ of a timed stage. *)
Definition organ_timer (s : stage) (b : Body) : Z :=
  match s with
  | stomach => st_timer (stomach_of b)
  | duodenum => du_timer (duodenum_of b)
  | small_intestine => si_timer (small_intestine_of b)
  | large_intestine => li_timer (large_intestine_of b)
  | _ => 0
  end.

Definition timed (s : stage) : bool :=
  match s with
  | stomach | duodenum | small_intestine | large_intestine => true
  | _ => false
  end.

(** [b'] agrees with [b] on everything that steers the stage machine,
    except the timer of the organ of stage [s]. *)
Definition same_but (s : stage) (b b' : Body) : Prop :=
  food b' = food b /\ env b' = env b /\ cond b' = cond b /\
  st_food (stomach_of b') = st_food (stomach_of b) /\
  si_food (small_intestine_of b') = si_food (small_intestine_of b) /\
  (forall s', s' <> s -> organ_timer s' b' = organ_timer s' b).

(** The stages dispatched on by the ticks of one meal, when the stomach
    timer is set to [n1]. *)
Definition meal_stages (n1 : nat) : list stage :=
  [mouth; esophagus] ++ repeat stomach (n1 + 2) ++ repeat duodenum 3 ++
  repeat small_intestine 19 ++ repeat large_intestine 37 ++ [rectum].

(** The hormones [_update_hormones_on_stage_entry] leaves in place when
    the stomach stage begins, as far as [Stomach.start_digestion] reads
    them. *)
Definition stomach_entry_hormones : Hormones := mkHormones Normal High Low Normal Normal.

(** The stage a timed stage hands over to. *)
Definition next_stage (s : stage) : stage :=
  match s with
  | stomach => duodenum
  | duodenum => small_intestine
  | small_intestine => large_intestine
  | large_intestine => rectum
  | s => s
  end.

(** The stage list of one meal as the specification words it: each timed
    stage visited exactly as many times as its duration. *)
Definition spec_meal_stages (n1 : nat) : list stage :=
  [mouth; esophagus] ++ repeat stomach n1 ++
  repeat duodenum (Z.to_nat TIME_MAP_Duodenum) ++
  repeat small_intestine (Z.to_nat TIME_MAP_SmallIntestine) ++
  repeat large_intestine (Z.to_nat TIME_MAP_LargeIntestine) ++ [rectum].

(** The setup of [main_loop]. *)
Definition main_env : Environment := mkEnvironment 37.0 2.
Definition main_cond : Conditions := mkConditions false false false false false.

Definition main_foods : list Food :=
  [mkFood "Burger & Fries" 60.0 30.0 35.0 4.0;
   mkFood "Salad" 15.0 5.0 10.0 8.0;
   mkFood "Pasta" 70.0 20.0 10.0 3.0;
   mkFood "Steak" 0.0 50.0 20.0 0.0].

(** A heap holding the four menu objects at locations 0 to 3. *)
Definition main_heap : heap :=
  mkHeap (fun l => nth l main_foods chyme_placeholder) 4%nat.

(** The heap and body after [n] ticks (unchanged if a tick raises). *)
Definition run_state (n : nat) (h : heap) (b : Body) : heap * Body :=
  match run_ticks n h b with
  | Some (_, h', b') => (h', b')
  | None => (h, b)
  end.

(** A fresh body that has just eaten the menu's pasta. *)
Definition pasta_meal : heap * Body := eat main_heap (Body_new main_env main_cond) 2%nat.

(* ------------------------------------------------------------------ *)
(** ** Further code: [gas_production], [Conditions.active], the progress
    bar and the stop test of [main_loop] *)

(** [Microbiome.gas_production] *)
Definition gas_production (m : Microbiome) : Q :=
  round2 (bad_bacteria m * 0.08 + fiber_intake m * 0.05).

(** [self.__dict__.items()] of a [Conditions]: its fields in declaration
    order. *)
Definition Conditions_items (c : Conditions) : list (string * bool) :=
  [("gastroparesis"%string, gastroparesis c); ("gerd"%string, gerd c);
   ("malabsorption"%string, malabsorption c); ("diabetes"%string, diabetes c);
   ("obesity"%string, obesity c)].

(** [Conditions.active]: [[k for k, v in self.__dict__.items() if v]] *)
Definition Conditions_active (c : Conditions) : list string :=
  map fst (filter snd (Conditions_items c)).

(** The [organ_remaining], [organ_total] and [desc] that [main_loop]
    computes before each tick. *)
Definition organ_progress (b : Body) : option Z * option Z * string :=
  match stage_of b with
  | stomach =>
      if 0 <? st_timer (stomach_of b)
      then (Some (st_timer (stomach_of b)), Some Stomach_base_timer, "Stomach"%string)
      else (None, None, "idle"%string)
  | duodenum =>
      (Some (du_timer (duodenum_of b)), Some TIME_MAP_Duodenum, "Duodenum"%string)
  | small_intestine =>
      (Some (si_timer (small_intestine_of b)), Some SmallIntestine_base_timer,
       "Small Intestine"%string)
  | large_intestine =>
      (Some (li_timer (large_intestine_of b)), Some TIME_MAP_LargeIntestine,
       "Large Intestine"%string)
  | _ => (None, None, "idle"%string)
  end.

(** The [total], [completed] and [description] passed to
    [progress.update]: [if organ_total and organ_total > 0] the organ's
    figures with [completed = max(0, organ_total - (organ_remaining or 0))],
    else [total=1, completed=1]. *)
Definition progress_update (b : Body) : Z * Z * string :=
  let '(organ_remaining, organ_total, desc) := organ_progress b in
  match organ_total with
  | Some t =>
      if 0 <? t
      then (t, Z.max 0 (t - match organ_remaining with Some r => r | None => 0 end), desc)
      else (1, 1, desc)
  | None => (1, 1, desc)
  end.

(** The stop test of [main_loop]:
    [body.stage == 'idle' and body.food is None]. *)
Definition digestion_complete (b : Body) : bool :=
  stage_eqb (stage_of b) idle && match food b with None => true | Some _ => false end.

(** The stage the [if self.stage == ...] chain of [Body.tick] hands over
    to when the current stage is over ([idle] stays [idle]). *)
Definition stage_after (s : stage) : stage :=
  match s with
  | idle => idle
  | mouth => esophagus
  | esophagus => stomach
  | stomach => duodenum
  | duodenum => small_intestine
  | small_intestine => large_intestine
  | large_intestine => rectum
  | rectum => idle
  end.

(** States reachable from a fresh [Body] created while the heap is [h0]. *)
Inductive reachable_from (h0 : heap) : heap * Body -> Prop :=
| rf_init e c : reachable_from h0 (h0, Body_new e c)
| rf_step s s' : reachable_from h0 s -> sim_step s s' -> reachable_from h0 s'.

(** A reference that is [None] or points at or above [n]. *)
Definition loc_above (n : loc) (o : option loc) : Prop :=
  match o with Some l => (n <= l)%nat | None => True end.

(** Bounds kept by every reachable [Body]. *)
Definition body_inv (b : Body) : Prop :=
  (0 <= hunger_level b <= 10) /\
  (0 <= st_timer (stomach_of b) <= 21) /\
  (0 <= du_timer (duodenum_of b) <= TIME_MAP_Duodenum) /\
  (0 <= si_timer (small_intestine_of b) <= TIME_MAP_SmallIntestine) /\
  (0 <= li_timer (large_intestine_of b) <= TIME_MAP_LargeIntestine) /\
  (stage_of b = idle <-> food b = None).

(** What running a body keeps of the heap it was created over ([h0]):
    the objects below [next_loc h0] and the references at or above it. *)
Definition frame_inv (h0 : heap) (s : heap * Body) : Prop :=
  (next_loc h0 <= next_loc (fst s))%nat /\
  (forall l, (l < next_loc h0)%nat -> read (fst s) l = read h0 l) /\
  loc_above (next_loc h0) (food (snd s)) /\
  loc_above (next_loc h0) (st_food (stomach_of (snd s))) /\
  loc_above (next_loc h0) (si_food (small_intestine_of (snd s))).

(** The pasta meal after [n] ticks. *)
Definition pasta_meal_after (n : nat) : heap * Body :=
  run_state n (fst pasta_meal) (snd pasta_meal).

(** The conditions with only [obesity] set. *)
Definition obese_cond : Conditions := mkConditions false false false false true.

(** A fresh obese body after one idle tick over the menu heap. *)
Definition obese_idle_state : heap * Body :=
  run_state 1 main_heap (Body_new main_env obese_cond).

(* ------------------------------------------------------------------ *)
(** * Lemmas *)

Lemma qltb_true a b : qltb a b = true -> (a < b)%Q.
Proof.
  unfold qltb. intros H. apply negb_true_iff in H.
  apply Qnot_le_lt. intros Hle. apply Qle_bool_iff in Hle. congruence.
Qed.

Lemma qltb_false a b : qltb a b = false -> (b <= a)%Q.
Proof.
  unfold qltb. intros H. apply negb_false_iff in H. now apply Qle_bool_iff.
Qed.

Ltac qcase :=
  match goal with
  | |- context [qltb ?a ?b] =>
      let E := fresh "E" in
      destruct (qltb a b) eqn:E;
      [apply qltb_true in E | apply qltb_false in E]
  end.

Lemma py_max_0_nonneg x : (0 <= py_max 0 x)%Q.
Proof. unfold py_max. qcase; lra. Qed.

Lemma py_max_0_id x : (0 <= x)%Q -> (py_max 0 x == x)%Q.
Proof. unfold py_max. qcase; lra. Qed.

Lemma py_min_Qmin a b : (py_min a b == Qmin a b)%Q.
Proof.
  unfold py_min. qcase.
  - rewrite Q.min_r; lra.
  - rewrite Q.min_l; lra.
Qed.

Lemma read_write_other h l l' f : l' <> l -> read (write h l f) l' = read h l'.
Proof. intros H. unfold read, write. simpl. now rewrite (proj2 (Nat.eqb_neq _ _) H). Qed.

Lemma alloc_read_new h f : read (snd (alloc h f)) (fst (alloc h f)) = f.
Proof. unfold read, alloc. simpl. now rewrite Nat.eqb_refl. Qed.

Lemma copy_food_id f : copy_food f = f.
Proof. now destruct f. Qed.

(** The double-precision duration differs from the exact formula only in
    the two factor combinations where the exact value is the integer 16. *)
Lemma stomach_duration_vs_exact hs c e :
  stomach_duration hs c e = spec_stomach_duration hs c e \/
  (stomach_duration hs c e = 15 /\ spec_stomach_duration hs c e = 16).
Proof.
  unfold stomach_duration, spec_stomach_duration, stomach_gastrin_factor,
    stomach_temp_factor, stomach_hunger_factor, stomach_disease_factor,
    stomach_stress_factor.
  rewrite Z.leb_antisym.
  destruct (gastrin hs), (ghrelin hs), (qltb (temperature_c e) 36.0),
    (qltb 38.0 (temperature_c e)), (stress_level e <? 6),
    (gastroparesis c), (gerd c);
    vm_compute; first [left; reflexivity | right; split; reflexivity].
Qed.

Lemma stomach_duration_default hs c e :
  gastrin hs = Normal -> ghrelin hs = Normal -> stress_level e < 6 ->
  (temperature_c e == 37)%Q -> gastroparesis c = false -> gerd c = false ->
  stomach_duration hs c e = 6.
Proof.
  intros Hg Hh Hs Ht Hp Hr.
  unfold stomach_duration, stomach_gastrin_factor, stomach_temp_factor,
    stomach_hunger_factor, stomach_disease_factor, stomach_stress_factor.
  rewrite Hg, Hh, Hp, Hr, (proj2 (Z.ltb_lt _ _) Hs).
  destruct (qltb (temperature_c e) 36.0) eqn:E1;
    [apply qltb_true in E1; lra |].
  destruct (qltb 38.0 (temperature_c e)) eqn:E2;
    [apply qltb_true in E2; lra |].
  vm_compute. reflexivity.
Qed.

Lemma absorb_tick_done_gen si h cnd en hs l :
  si_timer si = 0 -> si_food si = Some l ->
  (0 <= carbs (read h l))%Q -> (0 <= proteins (read h l))%Q ->
  (0 <= fats (read h l))%Q ->
  exists a e,
    SmallIntestine_absorb_tick si h cnd en hs = Some (si, SIDone a e) /\
    let m := if malabsorption cnd then 0.65%Q else 1.0%Q in
    let r := if diabetes cnd || obesity cnd then 0.75%Q else 1.0%Q in
    (ab_carbs a == carbs (read h l) * 0.95 * m)%Q /\
    (ab_proteins a == proteins (read h l) * 0.9 * m)%Q /\
    (ab_fats a == fats (read h l) * 0.85 * m)%Q /\
    (e == (ab_carbs a * 4 + ab_proteins a * 4 + ab_fats a * 9) * r)%Q.
Proof.
  intros Ht Hf Hc Hp Hfa.
  unfold SmallIntestine_absorb_tick. rewrite Ht, Hf. simpl.
  eexists _, _. split; [reflexivity |]. simpl.
  destruct (malabsorption cnd);
    repeat split; try reflexivity; apply py_max_0_id; lra.
Qed.

Lemma metabolize_energy_gen b a :
  let '(glycogen, fat_storage, protein_use, energy_added) := metabolize_parts a in
  (glycogen == Qmin 100 (ab_carbs a * 0.6))%Q /\
  (fat_storage == ab_fats a * 0.7)%Q /\
  (protein_use == ab_proteins a * 0.8)%Q /\
  (energy_added == glycogen * 4 + protein_use * 4 + fat_storage * 9)%Q /\
  (energy (fst (metabolize b a)) == energy b + energy_added)%Q.
Proof.
  unfold metabolize, metabolize_parts. simpl.
  repeat split; try reflexivity. apply py_min_Qmin.
Qed.

(** ** Microbiome *)

Lemma py_max_ge_l a b : (a <= py_max a b)%Q.
Proof. unfold py_max. qcase; lra. Qed.

Lemma py_max_ge_r a b : (b <= py_max a b)%Q.
Proof. unfold py_max. qcase; lra. Qed.

Lemma py_min_glb z a b : (z <= a)%Q -> (z <= b)%Q -> (z <= py_min a b)%Q.
Proof. unfold py_min. qcase; lra. Qed.

Lemma qltb_true_intro a b : (a < b)%Q -> qltb a b = true.
Proof.
  intros H. destruct (qltb a b) eqn:E; [reflexivity |].
  apply qltb_false in E. lra.
Qed.

(** The double-precision duration differs from the exact formula exactly
    in the two factor combinations found by [stomach_duration_vs_exact]. *)
Lemma stomach_duration_mismatch_b hs c e :
  Z.eqb (stomach_duration hs c e) (spec_stomach_duration hs c e) =
  negb (level_eqb (gastrin hs) Low && gastroparesis c && negb (gerd c) &&
        (stress_level e <? 6) &&
        (if level_eqb (ghrelin hs) High
         then negb (qltb (temperature_c e) 36.0) && negb (qltb 38.0 (temperature_c e))
         else qltb (temperature_c e) 36.0)).
Proof.
  unfold stomach_duration, spec_stomach_duration, stomach_gastrin_factor,
    stomach_temp_factor, stomach_hunger_factor, stomach_disease_factor,
    stomach_stress_factor.
  rewrite Z.leb_antisym.
  destruct (gastrin hs), (ghrelin hs), (qltb (temperature_c e) 36.0),
    (qltb 38.0 (temperature_c e)), (stress_level e <? 6),
    (gastroparesis c), (gerd c); vm_compute; reflexivity.
Qed.

Lemma stomach_duration_mismatch hs c e :
  stomach_duration hs c e <> spec_stomach_duration hs c e <->
  gastrin hs = Low /\ gastroparesis c = true /\ gerd c = false /\ stress_level e < 6 /\
  ((ghrelin hs <> High /\ (temperature_c e < 36)%Q) \/
   (ghrelin hs = High /\ (36 <= temperature_c e <= 38)%Q)).
Proof.
  assert (Lv : forall a b, level_eqb a b = true <-> a = b)
    by (intros [] []; simpl; split; congruence).
  assert (Qf : forall a b, (b <= a)%Q -> qltb a b = false)
    by (intros a b H; destruct (qltb a b) eqn:E; [apply qltb_true in E; lra | reflexivity]).
  rewrite <- Z.eqb_neq, stomach_duration_mismatch_b, negb_false_iff.
  rewrite !andb_true_iff, Lv, negb_true_iff, Z.ltb_lt.
  destruct (level_eqb (ghrelin hs) High) eqn:G.
  - apply Lv in G. cbv iota. rewrite !andb_true_iff, !negb_true_iff.
    split.
    + intros ((((A & B) & C) & D) & E1 & E2). repeat split; auto.
      right. split; [exact G |]. apply qltb_false in E1, E2. lra.
    + intros (A & B & C & D & [[N _] | [_ [T1 T2]]]); [contradiction |].
      repeat split; auto; apply Qf; lra.
  - cbv iota. assert (G' : ghrelin hs <> High) by (intros X; apply Lv in X; congruence).
    split.
    + intros ((((A & B) & C) & D) & E1). repeat split; auto.
      left. split; [exact G' |]. apply qltb_true in E1; lra.
    + intros (A & B & C & D & [[_ T] | [N _]]); [| contradiction].
      repeat split; auto. apply qltb_true_intro; lra.
Qed.

Lemma renorm_inv g b fi ab :
  (0 <= g)%Q -> (0 <= b)%Q -> (0 < g + b)%Q ->
  mb_inv (let '(g', b') :=
            if qltb 0 (g + b) then (Qred (g / (g + b) * 100), Qred (b / (g + b) * 100))
            else (g, b) in
          mkMicrobiome g' b' fi ab).
Proof.
  intros Hg Hb Ht. rewrite (qltb_true_intro _ _ Ht).
  unfold mb_inv. cbn [good_bacteria bad_bacteria].
  pose proof (Qred_correct (g / (g + b) * 100)) as E1.
  pose proof (Qred_correct (b / (g + b) * 100)) as E2.
  assert (Hn : ~ (g + b == 0)%Q) by lra.
  assert (H1 : (0 <= g / (g + b) * 100)%Q)
    by (apply Qmult_le_0_compat; [apply Qle_shift_div_l; lra | lra]).
  assert (H2 : (0 <= b / (g + b) * 100)%Q)
    by (apply Qmult_le_0_compat; [apply Qle_shift_div_l; lra | lra]).
  assert (H3 : (g / (g + b) * 100 + b / (g + b) * 100 == 100)%Q)
    by (field; exact Hn).
  repeat split; lra.
Qed.

Lemma mb_tick_inv m fib ab :
  mb_inv m ->
  mb_inv (Microbiome_tick (mkMicrobiome (good_bacteria m) (bad_bacteria m) fib ab)).
Proof.
  destruct m as [g b fi a0]. unfold mb_inv. simpl. intros [Hg [Hb Hs]].
  unfold Microbiome_tick. cbn [fiber_intake antibiotic good_bacteria bad_bacteria].
  assert (Hmin : (g <= py_min 100 (g + 1.2))%Q) by (apply py_min_glb; lra).
  pose proof (py_max_ge_l 0 (b - 0.6)) as Hm0.
  pose proof (py_max_ge_r 0 (b - 0.6)) as Hm1.
  destruct (qltb 0 fib), ab; cbv beta iota; apply renorm_inv.
  all: try apply py_max_0_nonneg; try lra.
  - pose proof (py_max_ge_r 0 (py_min 100 (g + 1.2) - 5.0)).
    pose proof (py_max_ge_r 0 (py_max 0 (b - 0.6) - 2.0)). lra.
  - pose proof (py_max_ge_r 0 (g - 5.0)). pose proof (py_max_ge_r 0 (b - 2.0)). lra.
Qed.

Lemma mb_reachable_inv m : mb_reachable m -> mb_inv m.
Proof.
  induction 1.
  - unfold mb_inv, Microbiome_new. simpl. lra.
  - now apply mb_tick_inv.
Qed.

Lemma div_mul_ge g x t : (0 < t)%Q -> (g * t <= x * 100)%Q -> (g <= x / t * 100)%Q.
Proof.
  intros Ht H. setoid_replace (x / t * 100)%Q with ((x * 100) / t)%Q
    by (field; intro; lra).
  apply Qle_shift_div_l; assumption.
Qed.

Lemma div_mul_le y b t : (0 < t)%Q -> (y * 100 <= b * t)%Q -> (y / t * 100 <= b)%Q.
Proof.
  intros Ht H. setoid_replace (y / t * 100)%Q with ((y * 100) / t)%Q
    by (field; intro; lra).
  apply Qle_shift_div_r; assumption.
Qed.

Lemma qred_div_ge g x t : (0 < t)%Q -> (g * t <= x * 100)%Q -> (g <= Qred (x / t * 100))%Q.
Proof.
  intros Ht H. pose proof (Qred_correct (x / t * 100)).
  pose proof (div_mul_ge g x t Ht H). lra.
Qed.

Lemma qred_div_le y b t : (0 < t)%Q -> (y * 100 <= b * t)%Q -> (Qred (y / t * 100) <= b)%Q.
Proof.
  intros Ht H. pose proof (Qred_correct (y / t * 100)).
  pose proof (div_mul_le y b t Ht H). lra.
Qed.

Lemma mb_fiber_monotone_gen m :
  (good_bacteria m + bad_bacteria m == 100)%Q ->
  (0 <= good_bacteria m <= 100)%Q -> (0 <= bad_bacteria m <= 100)%Q ->
  (0 < fiber_intake m)%Q -> antibiotic m = false ->
  (good_bacteria m <= good_bacteria (Microbiome_tick m))%Q /\
  (bad_bacteria (Microbiome_tick m) <= bad_bacteria m)%Q.
Proof.
  destruct m as [g b fi a]. cbn [good_bacteria bad_bacteria fiber_intake antibiotic].
  intros Hs [Hg0 Hg1] [Hb0 Hb1] Hf Ha. subst a.
  unfold Microbiome_tick. cbn [good_bacteria bad_bacteria fiber_intake antibiotic].
  rewrite (qltb_true_intro _ _ Hf). unfold py_min, py_max.
  (destruct (qltb (g + 1.2) 100) eqn:E1;
    [apply qltb_true in E1 | apply qltb_false in E1]);
  (destruct (qltb 0 (b - 0.6)) eqn:E2;
    [apply qltb_true in E2 | apply qltb_false in E2]);
  cbv beta iota;
  match goal with
  | |- context [qltb 0 ?t] =>
      let E := fresh "E" in
      (destruct (qltb 0 t) eqn:E; [apply qltb_true in E | apply qltb_false in E])
  end;
  cbn [good_bacteria bad_bacteria];
  try (exfalso; lra);
  assert (Hb : (b == 100 - g)%Q) by lra;
  split; first [apply qred_div_ge | apply qred_div_le]; try lra;
  rewrite ?Hb; nra.
Qed.

(** ** Body.tick *)

Lemma tick_enter_fields b :
  stage_of (tick_enter b) = stage_of b /\ food (tick_enter b) = food b /\
  stomach_of (tick_enter b) = stomach_of b /\
  duodenum_of (tick_enter b) = duodenum_of b /\
  small_intestine_of (tick_enter b) = small_intestine_of b /\
  large_intestine_of (tick_enter b) = large_intestine_of b /\
  env (tick_enter b) = env b /\ cond (tick_enter b) = cond b /\
  energy (tick_enter b) = energy b.
Proof.
  destruct b. unfold tick_enter. simpl.
  destruct (stage_changed _ _); [destruct stage_of0 |]; simpl; repeat split.
Qed.

Lemma tick_finish_fields h b :
  stage_of (tick_finish h b) = stage_of b /\ food (tick_finish h b) = food b /\
  stomach_of (tick_finish h b) = stomach_of b /\
  duodenum_of (tick_finish h b) = duodenum_of b /\
  small_intestine_of (tick_finish h b) = small_intestine_of b /\
  large_intestine_of (tick_finish h b) = large_intestine_of b /\
  env (tick_finish h b) = env b /\ cond (tick_finish h b) = cond b /\
  energy (tick_finish h b) = energy b.
Proof. destruct b. repeat split. Qed.

Lemma tick_safe_enter b : tick_safe (tick_enter b) <-> tick_safe b.
Proof.
  destruct (tick_enter_fields b) as (E1 & E2 & _ & _ & E5 & _).
  unfold tick_safe. now rewrite E1, E2, E5.
Qed.

Lemma tick_safe_finish h b : tick_safe (tick_finish h b) <-> tick_safe b.
Proof.
  destruct (tick_finish_fields h b) as (E1 & E2 & _ & _ & E5 & _).
  unfold tick_safe. now rewrite E1, E2, E5.
Qed.

Lemma dispatch_safe h b : tick_safe b -> exists r, dispatch h b = Some r.
Proof.
  destruct b as [e c mb hs hl en st ps tk tt fd ca me so du si li].
  unfold tick_safe, dispatch. simpl.
  destruct st; intros Hs.
  - eauto.
  - destruct fd as [l |]; [| contradiction].
    destruct (Mouth_process h l hs e). eauto.
  - eauto.
  - destruct (st_food so) as [l0 |].
    + destruct (Stomach_digest_tick so h) as [[h' s'] r].
      destruct r as [| [l |]]; [eauto | eauto |].
      destruct (alloc h' chyme_placeholder). eauto.
    + destruct fd as [l |]; [| contradiction]. simpl.
      destruct (alloc h (copy_food (read h l))). eauto.
  - destruct (Duodenum_process_tick du hs) as [d' [rem |]]; [eauto |].
    destruct fd as [l |]; [| contradiction]. simpl.
    destruct (alloc h (copy_food (read h l))). eauto.
  - unfold SmallIntestine_absorb_tick.
    destruct (0 <? si_timer si); [eauto |].
    destruct (si_food si) as [l |]; [| contradiction]. eauto.
  - destruct (LargeIntestine_tick li) as [li' [rem |]]; eauto.
  - eauto.
Qed.

Ltac break_in H :=
  repeat match type of H with
         | context [match ?x with _ => _ end] =>
             let E := fresh "Eq" in destruct x eqn:E
         end.

Lemma start_absorption_stores si h f hs h' s i :
  SmallIntestine_start_absorption si h f hs = Some (h', s, i) -> si_food s <> None.
Proof.
  unfold SmallIntestine_start_absorption. destruct f; [| discriminate].
  destruct (alloc _ _). intros H. inversion H; subst. simpl. congruence.
Qed.

Lemma absorb_tick_food si h c e hs s r :
  SmallIntestine_absorb_tick si h c e hs = Some (s, r) -> si_food s = si_food si.
Proof.
  unfold SmallIntestine_absorb_tick. destruct (0 <? si_timer si).
  - intros H. inversion H. reflexivity.
  - destruct (si_food si) eqn:E; intros H; inversion H; subst. congruence.
Qed.

Lemma dispatch_keeps_safe h b h' b' i :
  dispatch h b = Some (h', b', i) -> tick_safe b -> tick_safe b'.
Proof.
  destruct b as [e c mb hs hl en st ps tk tt fd ca me so du si li].
  unfold dispatch. simpl. intros Hd Hs.
  destruct st; unfold tick_safe in *; simpl in *; break_in Hd;
    inversion Hd; subst; simpl; try exact I; try congruence.
  - unfold set_hunger_from_flags. simpl.
    destruct (obesity c), (7 <=? hl); exact I.
  - eapply start_absorption_stores; eassumption.
  - erewrite absorb_tick_food by eassumption. exact Hs.
Qed.

Lemma tick_some h b : tick_safe b -> exists r, tick h b = Some r.
Proof.
  intros Hs. apply tick_safe_enter in Hs.
  destruct (dispatch_safe h _ Hs) as [[[h' b'] i] E].
  unfold tick. rewrite E. eauto.
Qed.

Lemma tick_keeps_safe h b h' b' i :
  tick h b = Some (h', b', i) -> tick_safe b -> tick_safe b'.
Proof.
  unfold tick. intros Ht Hs.
  destruct (dispatch h (tick_enter b)) as [[[h1 b1] i1] |] eqn:E; [| discriminate].
  inversion Ht; subst. apply tick_safe_finish.
  eapply dispatch_keeps_safe; [exact E |]. now apply tick_safe_enter.
Qed.

Lemma eat_fields h b l :
  stage_of (snd (eat h b l)) = mouth /\ food (snd (eat h b l)) = Some (next_loc h) /\
  small_intestine_of (snd (eat h b l)) = small_intestine_of b /\
  energy (snd (eat h b l)) = energy b.
Proof. destruct b. repeat split. Qed.

Lemma eat_safe h b l : tick_safe (snd (eat h b l)).
Proof.
  destruct (eat_fields h b l) as (E1 & E2 & _). unfold tick_safe.
  rewrite E1, E2. congruence.
Qed.

Lemma command_fields c b :
  stage_of (apply_command c b) = stage_of b /\ food (apply_command c b) = food b /\
  si_food (small_intestine_of (apply_command c b)) = si_food (small_intestine_of b) /\
  energy (apply_command c b) = energy b.
Proof. destruct b, c; repeat split. Qed.

Lemma command_safe c b : tick_safe b -> tick_safe (apply_command c b).
Proof.
  destruct (command_fields c b) as (E1 & E2 & E3 & _).
  unfold tick_safe. now rewrite E1, E2, E3.
Qed.

Lemma reachable_safe s : reachable s -> tick_safe (snd s).
Proof.
  induction 1 as [h e c | s s' _ IH Hst].
  - exact I.
  - destruct Hst as [h b h' b' i Ht | h b l _ | h b c].
    + eapply tick_keeps_safe; eassumption.
    + apply eat_safe.
    + now apply command_safe.
Qed.

(** ** Energy *)

Lemma absorb_tick_nonneg si h c e hs s a k :
  SmallIntestine_absorb_tick si h c e hs = Some (s, SIDone a k) ->
  (0 <= ab_carbs a /\ 0 <= ab_proteins a /\ 0 <= ab_fats a)%Q.
Proof.
  unfold SmallIntestine_absorb_tick. destruct (0 <? si_timer si); [discriminate |].
  destruct (si_food si); [| discriminate]. intros H. inversion H; subst. simpl.
  repeat split; apply py_max_0_nonneg.
Qed.

Lemma energy_added_nonneg a :
  (0 <= ab_carbs a /\ 0 <= ab_proteins a /\ 0 <= ab_fats a)%Q ->
  let '(_, _, _, ea) := metabolize_parts a in (0 <= ea)%Q.
Proof.
  intros (H1 & H2 & H3). unfold metabolize_parts.
  assert (Hg : (0 <= py_min 100 (ab_carbs a * 0.6))%Q) by (apply py_min_glb; lra).
  lra.
Qed.

Lemma dispatch_energy h b h' b' i :
  dispatch h b = Some (h', b', i) -> (energy b <= energy b')%Q.
Proof.
  destruct b as [e c mb hs hl en st ps tk tt fd ca me so du si li].
  unfold dispatch. simpl. intros Hd.
  destruct st; simpl in *; break_in Hd; inversion Hd; subst; simpl;
    try apply Qle_refl.
  - unfold set_hunger_from_flags. simpl.
    destruct (obesity c), (7 <=? hl); apply Qle_refl.
  - match goal with
    | H : SmallIntestine_absorb_tick _ _ _ _ _ = Some (_, SIDone ?a _) |- _ =>
        pose proof (energy_added_nonneg a (absorb_tick_nonneg _ _ _ _ _ _ _ _ H))
    end.
    unfold metabolize_parts in *. simpl. lra.
Qed.

Lemma tick_energy h b h' b' i :
  tick h b = Some (h', b', i) -> (energy b <= energy b')%Q.
Proof.
  unfold tick. intros Ht.
  destruct (dispatch h (tick_enter b)) as [[[h1 b1] i1] |] eqn:E; [| discriminate].
  inversion Ht; subst. apply dispatch_energy in E.
  destruct (tick_enter_fields b) as (_ & _ & _ & _ & _ & _ & _ & _ & E1).
  destruct (tick_finish_fields h' b1) as (_ & _ & _ & _ & _ & _ & _ & _ & E2).
  rewrite E2. rewrite E1 in E. exact E.
Qed.

Lemma dispatch_prev h b h' b' i :
  dispatch h b = Some (h', b', i) -> prev_stage b' = prev_stage b.
Proof.
  destruct b as [e c mb hs hl en st ps tk tt fd ca me so du si li].
  unfold dispatch. simpl. intros Hd.
  destruct st; simpl in *; break_in Hd; inversion Hd; subst; simpl;
    try reflexivity.
  unfold set_hunger_from_flags. simpl. destruct (obesity c), (7 <=? hl); reflexivity.
Qed.

Lemma tick_enter_prev b : prev_stage (tick_enter b) = Some (stage_of b).
Proof.
  destruct b as [e c mb hs hl en st ps tk tt fd ca me so du si li].
  unfold tick_enter. simpl. destruct (stage_changed ps st) eqn:Ech.
  - destruct st; reflexivity.
  - destruct ps as [p |]; [| discriminate]. simpl in *.
    apply negb_false_iff in Ech. destruct p, st; try discriminate; reflexivity.
Qed.

Lemma tick_prev h b h' b' i :
  tick h b = Some (h', b', i) -> prev_stage b' = Some (stage_of b).
Proof.
  unfold tick. intros Ht.
  destruct (dispatch h (tick_enter b)) as [[[h1 b1] i1] |] eqn:E; [| discriminate].
  inversion Ht; subst. apply dispatch_prev in E.
  destruct b1. simpl in *. rewrite E, tick_enter_prev. reflexivity.
Qed.

(** ** The stage machine *)

Lemma run_ticks_one h b h' b' i :
  tick h b = Some (h', b', i) -> run_ticks 1 h b = Some ([stage_of b], h', b').
Proof. intros H. simpl. now rewrite H. Qed.

Lemma run_ticks_seq n m h b l1 h1 b1 l2 h2 b2 :
  run_ticks n h b = Some (l1, h1, b1) -> run_ticks m h1 b1 = Some (l2, h2, b2) ->
  run_ticks (n + m) h b = Some (l1 ++ l2, h2, b2).
Proof.
  revert h b l1. induction n as [| n IH]; intros h b l1 H1 H2.
  - simpl in *. inversion H1; subst. exact H2.
  - simpl in *. destruct (tick h b) as [[[h' b'] i] |]; [| discriminate].
    destruct (run_ticks n h' b') as [[[l' h''] b''] |] eqn:E; [| discriminate].
    inversion H1; subst. rewrite (IH _ _ _ E H2). reflexivity.
Qed.

Lemma same_but_refl s b : same_but s b b.
Proof. unfold same_but. repeat split; auto. Qed.

Lemma same_but_trans s b1 b2 b3 :
  same_but s b1 b2 -> same_but s b2 b3 -> same_but s b1 b3.
Proof.
  unfold same_but. intros (A1 & A2 & A3 & A4 & A5 & A6) (B1 & B2 & B3 & B4 & B5 & B6).
  repeat split; try congruence.
  intros s' Hs. rewrite B6, A6; auto.
Qed.

Lemma same_but_enter s b : same_but s b (tick_enter b).
Proof.
  destruct (tick_enter_fields b) as (E1 & E2 & E3 & E4 & E5 & E6 & E7 & E8 & _).
  unfold same_but, organ_timer. rewrite E2, E3, E4, E5, E6, E7, E8.
  repeat split; intros; reflexivity.
Qed.

Lemma same_but_finish s h b : same_but s b (tick_finish h b).
Proof.
  destruct (tick_finish_fields h b) as (E1 & E2 & E3 & E4 & E5 & E6 & E7 & E8 & _).
  unfold same_but, organ_timer. rewrite E2, E3, E4, E5, E6, E7, E8.
  repeat split; intros; reflexivity.
Qed.

Lemma organ_timer_enter s b : organ_timer s (tick_enter b) = organ_timer s b.
Proof.
  destruct (tick_enter_fields b) as (_ & _ & E3 & E4 & E5 & E6 & _).
  unfold organ_timer. now rewrite E3, E4, E5, E6.
Qed.

Lemma organ_timer_finish s h b : organ_timer s (tick_finish h b) = organ_timer s b.
Proof.
  destruct (tick_finish_fields h b) as (_ & _ & E3 & E4 & E5 & E6 & _).
  unfold organ_timer. now rewrite E3, E4, E5, E6.
Qed.

Lemma dispatch_countdown h b s :
  timed s = true -> stage_of b = s ->
  (s = stomach -> st_food (stomach_of b) <> None) ->
  0 < organ_timer s b ->
  exists b' i, dispatch h b = Some (h, b', i) /\ stage_of b' = s /\
    organ_timer s b' = organ_timer s b - 1 /\ same_but s b b'.
Proof.
  intros Ht Hs Hst Hp. unfold dispatch. rewrite Hs.
  destruct s; try discriminate; unfold organ_timer in *.
  - destruct (st_food (stomach_of b)) as [l |] eqn:E; [| now destruct Hst].
    unfold Stomach_digest_tick. rewrite (proj2 (Z.ltb_lt _ _) Hp).
    do 2 eexists. split; [reflexivity |].
    destruct b; simpl in *. subst.
    unfold same_but, organ_timer; simpl. repeat split; auto.
    intros [] Hn; simpl; congruence.
  - unfold Duodenum_process_tick. rewrite (proj2 (Z.ltb_lt _ _) Hp).
    do 2 eexists. split; [reflexivity |].
    destruct b; simpl in *. subst.
    unfold same_but, organ_timer; simpl. repeat split; auto.
    intros [] Hn; simpl; congruence.
  - unfold SmallIntestine_absorb_tick. rewrite (proj2 (Z.ltb_lt _ _) Hp).
    do 2 eexists. split; [reflexivity |].
    destruct b; simpl in *. subst.
    unfold same_but, organ_timer; simpl. repeat split; auto.
    intros [] Hn; simpl; congruence.
  - unfold LargeIntestine_tick. rewrite (proj2 (Z.ltb_lt _ _) Hp).
    do 2 eexists. split; [reflexivity |].
    destruct b; simpl in *. subst.
    unfold same_but, organ_timer; simpl. repeat split; auto.
    intros [] Hn; simpl; congruence.
Qed.

Lemma tick_lift h b h' b' i :
  dispatch h (tick_enter b) = Some (h', b', i) -> tick h b = Some (h', tick_finish h' b', i).
Proof. intros H. unfold tick. now rewrite H. Qed.

Lemma tick_countdown h b s :
  timed s = true -> stage_of b = s ->
  (s = stomach -> st_food (stomach_of b) <> None) ->
  0 < organ_timer s b ->
  exists b' i, tick h b = Some (h, b', i) /\ stage_of b' = s /\
    organ_timer s b' = organ_timer s b - 1 /\ same_but s b b'.
Proof.
  intros Ht Hs Hst Hp.
  destruct (tick_enter_fields b) as (E1 & _ & E3 & _).
  destruct (dispatch_countdown h (tick_enter b) s Ht) as (b' & i & D & S1 & T1 & F1).
  - congruence.
  - rewrite E3. exact Hst.
  - now rewrite organ_timer_enter.
  - exists (tick_finish h b'), i. split; [now apply tick_lift |].
    destruct (tick_finish_fields h b') as (G1 & _).
    rewrite organ_timer_finish, T1, organ_timer_enter. split; [congruence |]. split; [reflexivity |].
    eapply same_but_trans; [apply same_but_enter |].
    eapply same_but_trans; [exact F1 | apply same_but_finish].
Qed.

Lemma run_countdown n h b s :
  timed s = true -> stage_of b = s ->
  (s = stomach -> st_food (stomach_of b) <> None) ->
  organ_timer s b = Z.of_nat n ->
  exists b', run_ticks n h b = Some (repeat s n, h, b') /\ stage_of b' = s /\
    organ_timer s b' = 0 /\ same_but s b b'.
Proof.
  revert b. induction n as [| n IH]; intros b Ht Hs Hst Hn.
  - exists b. simpl. repeat split; auto using same_but_refl.
  - destruct (tick_countdown h b s Ht Hs Hst) as (b1 & i & T & S1 & T1 & F1); [lia |].
    destruct (IH b1 Ht S1) as (b2 & R & S2 & T2 & F2).
    + intros E. destruct F1 as (_ & _ & _ & F & _). rewrite F. auto.
    + lia.
    + exists b2. simpl. rewrite T, R, Hs.
      split; [reflexivity |]. split; [exact S2 |]. split; [exact T2 |].
      eapply same_but_trans; eauto.
Qed.

Lemma stomach_duration_hormones hs c e :
  gastrin hs = High -> ghrelin hs = Low ->
  stomach_duration hs c e = stomach_duration stomach_entry_hormones c e.
Proof.
  intros G H. unfold stomach_duration, stomach_gastrin_factor, stomach_hunger_factor.
  now rewrite G, H.
Qed.

Lemma tick_enter_stomach_hormones b :
  stage_of b = stomach -> prev_stage b = Some esophagus ->
  gastrin (hormones (tick_enter b)) = High /\ ghrelin (hormones (tick_enter b)) = Low.
Proof.
  destruct b; simpl. intros -> ->. split; reflexivity.
Qed.

Lemma tick_mouth_step h b :
  stage_of b = mouth -> food b <> None ->
  exists h' b' i, tick h b = Some (h', b', i) /\ stage_of b' = esophagus /\
    same_but mouth b b'.
Proof.
  intros Hs Hf.
  destruct (tick_enter_fields b) as (E1 & E2 & _).
  destruct (food b) as [l |] eqn:F; [| congruence].
  assert (D : exists h' b' i, dispatch h (tick_enter b) = Some (h', b', i) /\
            stage_of b' = esophagus /\ same_but mouth (tick_enter b) b').
  { unfold dispatch. rewrite E1, Hs, E2.
    destruct (Mouth_process h l (hormones (tick_enter b)) (env (tick_enter b))) as [h' i].
    exists h', (set_stage (tick_enter b) esophagus), i. split; [reflexivity |].
    destruct (tick_enter b); simpl. unfold same_but, organ_timer; simpl.
    repeat split; auto. }
  destruct D as (h' & b' & i & D & S1 & F1).
  exists h', (tick_finish h' b'), i. split; [now apply tick_lift |].
  destruct (tick_finish_fields h' b') as (G1 & _).
  split; [congruence |].
  eapply same_but_trans; [apply same_but_enter |].
  eapply same_but_trans; [exact F1 | apply same_but_finish].
Qed.

Lemma tick_esophagus_step h b :
  stage_of b = esophagus ->
  exists h' b' i, tick h b = Some (h', b', i) /\ stage_of b' = stomach /\
    prev_stage b' = Some esophagus /\ same_but esophagus b b'.
Proof.
  intros Hs.
  destruct (tick_enter_fields b) as (E1 & _).
  assert (D : exists b' i, dispatch h (tick_enter b) = Some (h, b', i) /\
            stage_of b' = stomach /\ same_but esophagus (tick_enter b) b').
  { unfold dispatch. rewrite E1, Hs.
    eexists _, _. split; [reflexivity |].
    destruct (tick_enter b); simpl. unfold same_but, organ_timer; simpl.
    repeat split; auto. }
  destruct D as (b' & i & D & S1 & F1).
  pose proof (tick_lift _ _ _ _ _ D) as T.
  exists h, (tick_finish h b'), i. split; [exact T |].
  destruct (tick_finish_fields h b') as (G1 & _).
  split; [congruence |]. split.
  - rewrite (tick_prev _ _ _ _ _ T). congruence.
  - eapply same_but_trans; [apply same_but_enter |].
    eapply same_but_trans; [exact F1 | apply same_but_finish].
Qed.

Lemma dispatch_stomach_start h b l :
  stage_of b = stomach -> st_food (stomach_of b) = None -> food b = Some l ->
  exists h' b' i, dispatch h b = Some (h', b', i) /\ stage_of b' = stomach /\
    st_food (stomach_of b') <> None /\
    st_timer (stomach_of b') = stomach_duration (hormones b) (cond b) (env b) /\
    food b' = food b /\ env b' = env b /\ cond b' = cond b /\
    duodenum_of b' = duodenum_of b /\ small_intestine_of b' = small_intestine_of b /\
    large_intestine_of b' = large_intestine_of b.
Proof.
  intros Hs Hsf Hf. unfold dispatch. rewrite Hs, Hsf.
  unfold Stomach_start_digestion. rewrite Hf.
  destruct (alloc h (copy_food (read h l))) as [l' h'].
  do 3 eexists. split; [reflexivity |].
  simpl. repeat split; congruence.
Qed.

Lemma dispatch_stomach_finish h b l :
  stage_of b = stomach -> st_food (stomach_of b) = Some l ->
  st_timer (stomach_of b) <= 0 ->
  exists h' b' i, dispatch h b = Some (h', b', i) /\ stage_of b' = duodenum /\
    food b' = Some l /\ env b' = env b /\ cond b' = cond b /\
    st_timer (stomach_of b') = st_timer (stomach_of b) /\
    duodenum_of b' = duodenum_of b /\ small_intestine_of b' = small_intestine_of b /\
    large_intestine_of b' = large_intestine_of b.
Proof.
  intros Hs Hsf Ht. unfold dispatch. rewrite Hs, Hsf.
  unfold Stomach_digest_tick. rewrite (proj2 (Z.ltb_ge _ _) Ht), Hsf.
  do 3 eexists. split; [reflexivity |].
  simpl. repeat split; reflexivity.
Qed.

Lemma dispatch_duodenum_finish h b l :
  stage_of b = duodenum -> du_timer (duodenum_of b) <= 0 -> food b = Some l ->
  exists h' b' i, dispatch h b = Some (h', b', i) /\ stage_of b' = small_intestine /\
    si_food (small_intestine_of b') <> None /\
    food b' = food b /\ env b' = env b /\ cond b' = cond b /\
    st_timer (stomach_of b') = st_timer (stomach_of b) /\
    du_timer (duodenum_of b') = du_timer (duodenum_of b) /\
    si_timer (small_intestine_of b') = si_timer (small_intestine_of b) /\
    large_intestine_of b' = large_intestine_of b.
Proof.
  intros Hs Ht Hf. unfold dispatch. rewrite Hs.
  unfold Duodenum_process_tick. rewrite (proj2 (Z.ltb_ge _ _) Ht).
  unfold SmallIntestine_start_absorption. simpl. rewrite Hf.
  destruct (alloc h (copy_food (read h l))) as [l' h'].
  do 3 eexists. split; [reflexivity |].
  simpl. repeat split; congruence.
Qed.

Lemma dispatch_small_intestine_finish h b l :
  stage_of b = small_intestine -> si_timer (small_intestine_of b) <= 0 ->
  si_food (small_intestine_of b) = Some l ->
  exists b' i, dispatch h b = Some (h, b', i) /\ stage_of b' = large_intestine /\
    food b' = food b /\ env b' = env b /\ cond b' = cond b /\
    stomach_of b' = stomach_of b /\ duodenum_of b' = duodenum_of b /\
    small_intestine_of b' = small_intestine_of b /\
    large_intestine_of b' = large_intestine_of b.
Proof.
  intros Hs Ht Hf. unfold dispatch. rewrite Hs.
  unfold SmallIntestine_absorb_tick. rewrite (proj2 (Z.ltb_ge _ _) Ht), Hf.
  unfold metabolize. do 2 eexists. split; [reflexivity |].
  simpl. repeat split; reflexivity.
Qed.

Lemma dispatch_large_intestine_finish h b :
  stage_of b = large_intestine -> li_timer (large_intestine_of b) <= 0 ->
  exists b' i, dispatch h b = Some (h, b', i) /\ stage_of b' = rectum /\
    food b' = food b /\ env b' = env b /\ cond b' = cond b /\
    stomach_of b' = stomach_of b /\ duodenum_of b' = duodenum_of b /\
    small_intestine_of b' = small_intestine_of b /\
    large_intestine_of b' = large_intestine_of b.
Proof.
  intros Hs Ht. unfold dispatch. rewrite Hs.
  unfold LargeIntestine_tick. rewrite (proj2 (Z.ltb_ge _ _) Ht).
  do 2 eexists. split; [reflexivity |].
  simpl. repeat split; reflexivity.
Qed.

Lemma dispatch_rectum h b :
  stage_of b = rectum ->
  exists b' i, dispatch h b = Some (h, b', i) /\ stage_of b' = idle.
Proof.
  intros Hs. unfold dispatch. rewrite Hs. do 2 eexists. split; reflexivity.
Qed.

Lemma tick_stomach_start h b :
  stage_of b = stomach -> prev_stage b = Some esophagus ->
  st_food (stomach_of b) = None -> food b <> None ->
  exists h' b' i, tick h b = Some (h', b', i) /\ stage_of b' = stomach /\
    st_food (stomach_of b') <> None /\
    organ_timer stomach b' = stomach_duration stomach_entry_hormones (cond b) (env b) /\
    food b' = food b /\ env b' = env b /\ cond b' = cond b /\
    (forall s, s <> stomach -> organ_timer s b' = organ_timer s b).
Proof.
  intros Hs Hp Hsf Hf.
  destruct (food b) as [l |] eqn:F; [| congruence].
  destruct (tick_enter_stomach_hormones b Hs Hp) as [HG HL].
  destruct (tick_enter_fields b) as (E1 & E2 & E3 & E4 & E5 & E6 & E7 & E8 & _).
  destruct (dispatch_stomach_start h (tick_enter b) l)
    as (h' & b' & i & D & S1 & Q1 & Q2 & Q3 & Q4 & Q5 & Q6 & Q7 & Q8);
    [congruence | congruence | congruence |].
  exists h', (tick_finish h' b'), i. split; [now apply tick_lift |].
  destruct (tick_finish_fields h' b') as (G1 & G2 & G3 & G4 & G5 & G6 & G7 & G8 & _).
  split; [congruence |]. split; [congruence |]. split.
  { unfold organ_timer. rewrite G3, Q2, (stomach_duration_hormones _ _ _ HG HL).
    congruence. }
  repeat split; try congruence.
  intros [] Hn; unfold organ_timer; congruence.
Qed.

Lemma tick_stomach_finish h b :
  stage_of b = stomach -> st_food (stomach_of b) <> None ->
  organ_timer stomach b <= 0 ->
  exists h' b' i, tick h b = Some (h', b', i) /\ stage_of b' = duodenum /\
    food b' <> None /\ env b' = env b /\ cond b' = cond b /\
    (forall s, organ_timer s b' = organ_timer s b).
Proof.
  intros Hs Hsf Ht. unfold organ_timer in Ht.
  destruct (st_food (stomach_of b)) as [l |] eqn:F; [| congruence].
  destruct (tick_enter_fields b) as (E1 & E2 & E3 & E4 & E5 & E6 & E7 & E8 & _).
  destruct (dispatch_stomach_finish h (tick_enter b) l)
    as (h' & b' & i & D & S1 & Q1 & Q2 & Q3 & Q4 & Q5 & Q6 & Q7);
    [congruence | congruence | congruence |].
  exists h', (tick_finish h' b'), i. split; [now apply tick_lift |].
  destruct (tick_finish_fields h' b') as (G1 & G2 & G3 & G4 & G5 & G6 & G7 & G8 & _).
  repeat split; try congruence.
  intros []; unfold organ_timer; congruence.
Qed.

Lemma tick_duodenum_finish h b :
  stage_of b = duodenum -> organ_timer duodenum b <= 0 -> food b <> None ->
  exists h' b' i, tick h b = Some (h', b', i) /\ stage_of b' = small_intestine /\
    si_food (small_intestine_of b') <> None /\ env b' = env b /\ cond b' = cond b /\
    (forall s, organ_timer s b' = organ_timer s b).
Proof.
  intros Hs Ht Hf. unfold organ_timer in Ht.
  destruct (food b) as [l |] eqn:F; [| congruence].
  destruct (tick_enter_fields b) as (E1 & E2 & E3 & E4 & E5 & E6 & E7 & E8 & _).
  destruct (dispatch_duodenum_finish h (tick_enter b) l)
    as (h' & b' & i & D & S1 & Q1 & Q2 & Q3 & Q4 & Q5 & Q6 & Q7 & Q8);
    [congruence | congruence | congruence |].
  exists h', (tick_finish h' b'), i. split; [now apply tick_lift |].
  destruct (tick_finish_fields h' b') as (G1 & G2 & G3 & G4 & G5 & G6 & G7 & G8 & _).
  repeat split; try congruence.
  intros []; unfold organ_timer; congruence.
Qed.

Lemma tick_small_intestine_finish h b :
  stage_of b = small_intestine -> organ_timer small_intestine b <= 0 ->
  si_food (small_intestine_of b) <> None ->
  exists b' i, tick h b = Some (h, b', i) /\ stage_of b' = large_intestine /\
    env b' = env b /\ cond b' = cond b /\
    (forall s, organ_timer s b' = organ_timer s b).
Proof.
  intros Hs Ht Hf. unfold organ_timer in Ht.
  destruct (si_food (small_intestine_of b)) as [l |] eqn:F; [| congruence].
  destruct (tick_enter_fields b) as (E1 & E2 & E3 & E4 & E5 & E6 & E7 & E8 & _).
  destruct (dispatch_small_intestine_finish h (tick_enter b) l)
    as (b' & i & D & S1 & Q1 & Q2 & Q3 & Q4 & Q5 & Q6 & Q7);
    [congruence | congruence | congruence |].
  exists (tick_finish h b'), i. split; [now apply tick_lift |].
  destruct (tick_finish_fields h b') as (G1 & G2 & G3 & G4 & G5 & G6 & G7 & G8 & _).
  repeat split; try congruence.
  intros []; unfold organ_timer; congruence.
Qed.

Lemma tick_large_intestine_finish h b :
  stage_of b = large_intestine -> organ_timer large_intestine b <= 0 ->
  exists b' i, tick h b = Some (h, b', i) /\ stage_of b' = rectum /\
    env b' = env b /\ cond b' = cond b /\
    (forall s, organ_timer s b' = organ_timer s b).
Proof.
  intros Hs Ht. unfold organ_timer in Ht.
  destruct (tick_enter_fields b) as (E1 & E2 & E3 & E4 & E5 & E6 & E7 & E8 & _).
  destruct (dispatch_large_intestine_finish h (tick_enter b))
    as (b' & i & D & S1 & Q1 & Q2 & Q3 & Q4 & Q5 & Q6 & Q7);
    [congruence | congruence |].
  exists (tick_finish h b'), i. split; [now apply tick_lift |].
  destruct (tick_finish_fields h b') as (G1 & G2 & G3 & G4 & G5 & G6 & G7 & G8 & _).
  repeat split; try congruence.
  intros []; unfold organ_timer; congruence.
Qed.

Lemma tick_rectum h b :
  stage_of b = rectum -> exists b' i, tick h b = Some (h, b', i) /\ stage_of b' = idle.
Proof.
  intros Hs.
  destruct (tick_enter_fields b) as (E1 & _).
  destruct (dispatch_rectum h (tick_enter b)) as (b' & i & D & S1); [congruence |].
  exists (tick_finish h b'), i. split; [now apply tick_lift |].
  destruct (tick_finish_fields h b') as (G1 & _). congruence.
Qed.

Lemma eat_frame h b l :
  env (snd (eat h b l)) = env b /\ cond (snd (eat h b l)) = cond b /\
  st_food (stomach_of (snd (eat h b l))) = st_food (stomach_of b) /\
  (forall s, organ_timer s (snd (eat h b l)) = organ_timer s b).
Proof. destruct b. repeat split. Qed.

Lemma stomach_duration_ge_2 hs c e : 2 <= stomach_duration hs c e.
Proof. unfold stomach_duration, stomach_computed. lia. Qed.

Lemma repeat_plus_2 {A} (x : A) n : repeat x (n + 2) = x :: repeat x n ++ [x].
Proof. induction n as [| n IH]; [reflexivity |]. simpl. now rewrite IH. Qed.

Lemma meal_stages_split n1 :
  meal_stages n1 =
  [mouth] ++ [esophagus] ++ [stomach] ++ repeat stomach n1 ++ [stomach] ++
  repeat duodenum 2 ++ [duodenum] ++ repeat small_intestine 18 ++ [small_intestine] ++
  repeat large_intestine 36 ++ [large_intestine] ++ [rectum].
Proof.
  unfold meal_stages. rewrite repeat_plus_2. simpl.
  now repeat (rewrite <- app_assoc; simpl).
Qed.

(** C1 (amended). From a body whose four organs are fresh, the ticks of one
    meal dispatch on mouth, esophagus, then stomach N1 + 2 times,
    duodenum 3 times, small_intestine 19 times, large_intestine 37 times
    and rectum once, after which the body is idle; N1 is the stomach
    duration computed under the hormones set on entering the stomach
    (gastrin High, ghrelin Low). *)
Lemma meal_run h b l :
  stomach_of b = Stomach_new -> duodenum_of b = Duodenum_new ->
  small_intestine_of b = SmallIntestine_new -> large_intestine_of b = LargeIntestine_new ->
  let n1 := Z.to_nat (stomach_duration stomach_entry_hormones (cond b) (env b)) in
  exists h' b',
    run_ticks (n1 + 64) (fst (eat h b l)) (snd (eat h b l)) = Some (meal_stages n1, h', b') /\
    stage_of b' = idle.
Proof.
  intros Hst Hdu Hsi Hli n1.
  destruct (eat_fields h b l) as (A1 & A2 & _).
  destruct (eat_frame h b l) as (A3 & A4 & A5 & A6).
  set (p := eat h b l) in *. destruct p as [h0 b0]. cbn [fst snd] in A1, A2, A3, A4, A5, A6 |- *.
  (* mouth *)
  destruct (tick_mouth_step h0 b0 A1) as (h1 & b1 & i1 & T1 & S1 & F1); [congruence |].
  destruct F1 as (F1a & F1b & F1c & F1d & F1e & F1f).
  (* esophagus *)
  destruct (tick_esophagus_step h1 b1 S1) as (h2 & b2 & i2 & T2 & S2 & P2 & F2).
  destruct F2 as (F2a & F2b & F2c & F2d & F2e & F2f).
  (* stomach, first tick *)
  destruct (tick_stomach_start h2 b2 S2 P2) as (h3 & b3 & i3 & T3 & S3 & N3 & D3 & F3a & F3b & F3c & F3f);
    [rewrite F2d, F1d, A5, Hst; reflexivity | congruence |].
  (* stomach countdown *)
  destruct (run_countdown n1 h3 b3 stomach eq_refl S3) as (b4 & R4 & S4 & Z4 & F4);
    [intros _; exact N3 |
     rewrite D3, F2b, F2c, F1b, F1c, A3, A4; unfold n1;
     rewrite Z2Nat.id; [reflexivity | pose proof (stomach_duration_ge_2 stomach_entry_hormones (cond b) (env b)); lia] |].
  destruct F4 as (F4a & F4b & F4c & F4d & F4e & F4f).
  (* stomach, last tick *)
  destruct (tick_stomach_finish h3 b4 S4) as (h5 & b5 & i5 & T5 & S5 & N5 & E5 & C5 & F5);
    [congruence | lia |].
  (* duodenum *)
  assert (Hd : organ_timer duodenum b5 = Z.of_nat 2).
  { rewrite F5, F4f, F3f, F2f, F1f, A6 by discriminate. unfold organ_timer. now rewrite Hdu. }
  destruct (run_countdown 2 h5 b5 duodenum eq_refl S5) as (b6 & R6 & S6 & Z6 & F6);
    [discriminate | exact Hd |].
  destruct F6 as (F6a & F6b & F6c & F6d & F6e & F6f).
  destruct (tick_duodenum_finish h5 b6 S6) as (h7 & b7 & i7 & T7 & S7 & N7 & E7 & C7 & F7);
    [lia | congruence |].
  (* small intestine *)
  assert (Hs : organ_timer small_intestine b7 = Z.of_nat 18).
  { rewrite F7, F6f, F5, F4f, F3f, F2f, F1f, A6 by discriminate.
    unfold organ_timer. now rewrite Hsi. }
  destruct (run_countdown 18 h7 b7 small_intestine eq_refl S7) as (b8 & R8 & S8 & Z8 & F8);
    [discriminate | exact Hs |].
  destruct F8 as (F8a & F8b & F8c & F8d & F8e & F8f).
  destruct (tick_small_intestine_finish h7 b8 S8) as (b9 & i9 & T9 & S9 & E9 & C9 & F9);
    [lia | congruence |].
  (* large intestine *)
  assert (Hl : organ_timer large_intestine b9 = Z.of_nat 36).
  { rewrite F9, F8f, F7, F6f, F5, F4f, F3f, F2f, F1f, A6 by discriminate.
    unfold organ_timer. now rewrite Hli. }
  destruct (run_countdown 36 h7 b9 large_intestine eq_refl S9) as (b10 & R10 & S10 & Z10 & F10);
    [discriminate | exact Hl |].
  destruct (tick_large_intestine_finish h7 b10 S10) as (b11 & i11 & T11 & S11 & _); [lia |].
  (* rectum *)
  destruct (tick_rectum h7 b11 S11) as (b12 & i12 & T12 & S12).
  exists h7, b12. split; [| exact S12].
  pose proof (run_ticks_one _ _ _ _ _ T1) as Q1. rewrite A1 in Q1.
  pose proof (run_ticks_one _ _ _ _ _ T2) as Q2. rewrite S1 in Q2.
  pose proof (run_ticks_one _ _ _ _ _ T3) as Q3. rewrite S2 in Q3.
  pose proof (run_ticks_one _ _ _ _ _ T5) as Q5. rewrite S4 in Q5.
  pose proof (run_ticks_one _ _ _ _ _ T7) as Q7. rewrite S6 in Q7.
  pose proof (run_ticks_one _ _ _ _ _ T9) as Q9. rewrite S8 in Q9.
  pose proof (run_ticks_one _ _ _ _ _ T11) as Q11. rewrite S10 in Q11.
  pose proof (run_ticks_one _ _ _ _ _ T12) as Q12. rewrite S11 in Q12.
  pose proof (run_ticks_seq _ _ _ _ _ _ _ _ _ _ Q11 Q12) as R.
  pose proof (run_ticks_seq _ _ _ _ _ _ _ _ _ _ R10 R) as R'. clear R.
  pose proof (run_ticks_seq _ _ _ _ _ _ _ _ _ _ Q9 R') as R. clear R'.
  pose proof (run_ticks_seq _ _ _ _ _ _ _ _ _ _ R8 R) as R'. clear R.
  pose proof (run_ticks_seq _ _ _ _ _ _ _ _ _ _ Q7 R') as R. clear R'.
  pose proof (run_ticks_seq _ _ _ _ _ _ _ _ _ _ R6 R) as R'. clear R.
  pose proof (run_ticks_seq _ _ _ _ _ _ _ _ _ _ Q5 R') as R. clear R'.
  pose proof (run_ticks_seq _ _ _ _ _ _ _ _ _ _ R4 R) as R'. clear R.
  pose proof (run_ticks_seq _ _ _ _ _ _ _ _ _ _ Q3 R') as R. clear R'.
  pose proof (run_ticks_seq _ _ _ _ _ _ _ _ _ _ Q2 R) as R'. clear R.
  pose proof (run_ticks_seq _ _ _ _ _ _ _ _ _ _ Q1 R') as R. clear R'.
  rewrite meal_stages_split.
  replace (n1 + 64)%nat with (1 + (1 + (1 + (n1 + (1 + (2 + (1 + (18 + (1 + (36 + (1 + 1)))))))))))%nat by lia.
  exact R.
Qed.

Lemma skip_fields b :
  stage_of (apply_command CmdSkip b) = stage_of b /\
  st_food (stomach_of (apply_command CmdSkip b)) = st_food (stomach_of b) /\
  (forall s, organ_timer s (apply_command CmdSkip b) = 0).
Proof. destruct b. split; [reflexivity |]. split; [reflexivity |]. intros []; reflexivity. Qed.

Lemma run_ticks_reachable n h b l h' b' :
  reachable (h, b) -> run_ticks n h b = Some (l, h', b') -> reachable (h', b').
Proof.
  revert h b l. induction n as [| n IH]; intros h b l R E.
  - simpl in E. inversion E; subst. exact R.
  - simpl in E. destruct (tick h b) as [[[h1 b1] i] |] eqn:T; [| discriminate].
    destruct (run_ticks n h1 b1) as [[[l1 h2] b2] |] eqn:E1; [| discriminate].
    inversion E; subst.
    eapply IH; [| exact E1]. eapply reach_step; [exact R |]. econstructor; exact T.
Qed.

Lemma run_state_reachable n h b : reachable (h, b) -> reachable (run_state n h b).
Proof.
  intros R. unfold run_state.
  destruct (run_ticks n h b) as [[[l h'] b'] |] eqn:E; [| exact R].
  eapply run_ticks_reachable; eassumption.
Qed.

Lemma pasta_meal_reachable : reachable pasta_meal.
Proof.
  eapply reach_step; [apply (reach_init main_heap main_env main_cond) |].
  apply step_eat. simpl. lia.
Qed.

(** ** Invariants of reachable bodies, the heap frame, settings and rounding *)

Lemma stomach_duration_range_gen hs c e : 4 <= stomach_duration hs c e <= 21.
Proof.
  assert (B : (4 <=? stomach_duration hs c e) && (stomach_duration hs c e <=? 21) = true).
  { unfold stomach_duration, stomach_gastrin_factor, stomach_temp_factor,
      stomach_hunger_factor, stomach_disease_factor, stomach_stress_factor.
    destruct (gastrin hs), (ghrelin hs), (qltb (temperature_c e) 36.0),
      (qltb 38.0 (temperature_c e)), (stress_level e <? 6),
      (gastroparesis c), (gerd c); vm_compute; reflexivity. }
  apply andb_true_iff in B as [B1 B2]. apply Z.leb_le in B1, B2. lia.
Qed.

Ltac zbools :=
  repeat match goal with
         | H : (_ <? _) = true |- _ => apply Z.ltb_lt in H
         | H : (_ <? _) = false |- _ => apply Z.ltb_ge in H
         | H : (_ <=? _) = true |- _ => apply Z.leb_le in H
         | H : (_ <=? _) = false |- _ => apply Z.leb_gt in H
         end.

Lemma tick_enter_inv b : body_inv (tick_enter b) <-> body_inv b.
Proof.
  destruct b as [e c mb hs hl en st ps tk tt fd ca me so du si li].
  unfold tick_enter, body_inv. simpl.
  destruct (stage_changed _ _); [destruct st |]; simpl; tauto.
Qed.

Lemma tick_finish_inv h b : body_inv (tick_finish h b) <-> body_inv b.
Proof. destruct b. unfold body_inv. simpl. tauto. Qed.

Ltac open_organ E :=
  unfold Stomach_digest_tick, Duodenum_process_tick, SmallIntestine_absorb_tick,
    LargeIntestine_tick, Stomach_start_digestion, SmallIntestine_start_absorption,
    Mouth_process, alloc in E;
  simpl in E; break_in E; inversion E; subst; clear E.

Ltac open_organs :=
  repeat match goal with
  | E : Stomach_digest_tick _ _ = _ |- _ => open_organ E
  | E : Duodenum_process_tick _ _ = _ |- _ => open_organ E
  | E : SmallIntestine_absorb_tick _ _ _ _ _ = _ |- _ => open_organ E
  | E : LargeIntestine_tick _ = _ |- _ => open_organ E
  | E : Stomach_start_digestion _ _ _ _ _ _ = _ |- _ => open_organ E
  | E : SmallIntestine_start_absorption _ _ _ _ = _ |- _ => open_organ E
  | E : Mouth_process _ _ _ _ = _ |- _ => open_organ E
  | E : alloc _ _ = _ |- _ => open_organ E
  end.

Lemma dispatch_inv h b h' b' i :
  dispatch h b = Some (h', b', i) -> body_inv b -> body_inv b'.
Proof.
  destruct b as [e c mb hs hl en st ps tk tt fd ca me so du si li].
  unfold dispatch. simpl. intros Hd Hi.
  destruct st; simpl in *; break_in Hd; inversion Hd; subst; clear Hd; open_organs; zbools;
    unfold body_inv in *; simpl in *.
  all: try (unfold set_hunger_from_flags; simpl; destruct (obesity c), (7 <=? hl); simpl).
  all: try pose proof (stomach_duration_range_gen hs c e).
  all: intuition (try lia; try discriminate; try congruence).
Qed.

Lemma tick_inv h b h' b' i :
  tick h b = Some (h', b', i) -> body_inv b -> body_inv b'.
Proof.
  unfold tick. intros Ht Hi.
  destruct (dispatch h (tick_enter b)) as [[[h1 b1] i1] |] eqn:E; [| discriminate].
  inversion Ht; subst. apply tick_finish_inv.
  eapply dispatch_inv; [exact E |]. now apply tick_enter_inv.
Qed.

Lemma eat_inv h b l : body_inv b -> body_inv (snd (eat h b l)).
Proof.
  destruct b. unfold body_inv. simpl. intuition (try lia; try discriminate).
Qed.

Lemma command_inv c b : body_inv b -> body_inv (apply_command c b).
Proof.
  destruct b, c; unfold body_inv; simpl; intuition (try lia; try discriminate).
Qed.

Lemma reachable_body (P : Body -> Prop) :
  (forall e c, P (Body_new e c)) ->
  (forall h b h' b' i, tick h b = Some (h', b', i) -> P b -> P b') ->
  (forall h b l, P b -> P (snd (eat h b l))) ->
  (forall c b, P b -> P (apply_command c b)) ->
  forall s, reachable s -> P (snd s).
Proof.
  intros Hn Ht He Hc s R. induction R as [h e c | s s' _ IH Hst]; [apply Hn |].
  destruct Hst as [h b h' b' i T | h b l _ | h b c]; eauto.
Qed.

Lemma reachable_body_inv s : reachable s -> body_inv (snd s).
Proof.
  apply reachable_body.
  - intros e c. unfold body_inv. simpl. unfold TIME_MAP_Duodenum, TIME_MAP_SmallIntestine, TIME_MAP_LargeIntestine.
    intuition (try lia; try discriminate).
  - intros. eapply tick_inv; eassumption.
  - apply eat_inv.
  - apply command_inv.
Qed.

Lemma pasta_meal_after_reachable n :
  reachable (fst (pasta_meal_after n), snd (pasta_meal_after n)).
Proof.
  rewrite <- surjective_pairing.
  unfold pasta_meal_after. apply run_state_reachable.
  rewrite <- surjective_pairing. apply pasta_meal_reachable.
Qed.

Lemma dispatch_frame h0 h b h' b' i :
  dispatch h b = Some (h', b', i) -> frame_inv h0 (h, b) -> frame_inv h0 (h', b').
Proof.
  destruct b as [e c mb hs hl en st ps tk tt fd ca me so du si li].
  unfold dispatch. simpl. intros Hd Hi.
  destruct st; simpl in *; break_in Hd; inversion Hd; subst; clear Hd; open_organs;
    repeat match goal with E : (_, _) = (_, _) |- _ => inversion E; subst; clear E end;
    unfold frame_inv, loc_above, write in *; simpl in *.
  all: try (unfold set_hunger_from_flags; simpl; destruct (obesity c), (7 <=? hl); simpl).
  all: repeat match goal with H : _ = Some _ |- _ => rewrite H in * end.
  all: unfold read in *; simpl in *.
  all: intuition (try lia; try discriminate; try congruence).
  all: repeat match goal with |- context [Nat.eqb ?a ?b] => destruct (Nat.eqb_spec a b) end;
    try lia; auto.
Qed.

Lemma tick_frame h0 h b h' b' i :
  tick h b = Some (h', b', i) -> frame_inv h0 (h, b) -> frame_inv h0 (h', b').
Proof.
  unfold tick. intros Ht Hi.
  destruct (dispatch h (tick_enter b)) as [[[h1 b1] i1] |] eqn:E; [| discriminate].
  inversion Ht; subst.
  assert (F : frame_inv h0 (h', b1)).
  { eapply dispatch_frame; [exact E |].
    destruct (tick_enter_fields b) as (_ & E2 & E3 & _ & E5 & _).
    unfold frame_inv in *; cbn [fst snd] in *. rewrite E2, E3, E5. exact Hi. }
  destruct (tick_finish_fields h' b1) as (_ & E2 & E3 & _ & E5 & _).
  unfold frame_inv in *; cbn [fst snd] in *. rewrite E2, E3, E5. exact F.
Qed.

Lemma eat_frame_inv h0 h b l :
  frame_inv h0 (h, b) -> frame_inv h0 (eat h b l).
Proof.
  destruct b. unfold frame_inv, eat, alloc, loc_above, read. simpl.
  intros (H1 & H2 & H3 & H4 & H5). repeat split; try lia; auto.
  intros l0 Hl0. destruct (Nat.eqb_spec l0 (next_loc h)); [lia | auto].
Qed.

Lemma command_frame_inv h0 h b c :
  frame_inv h0 (h, b) -> frame_inv h0 (h, apply_command c b).
Proof. destruct b, c; unfold frame_inv; simpl; tauto. Qed.

Lemma reachable_from_frame h0 s : reachable_from h0 s -> frame_inv h0 s.
Proof.
  induction 1 as [e c | s s' _ IH Hst].
  - unfold frame_inv. simpl. repeat split; auto.
  - destruct Hst as [h b h' b' i T | h b l _ | h b c].
    + eapply tick_frame; eassumption.
    + now apply eat_frame_inv.
    + now apply command_frame_inv.
Qed.

Lemma run_state_reachable_from h0 n h b :
  reachable_from h0 (h, b) -> reachable_from h0 (run_state n h b).
Proof.
  unfold run_state. destruct (run_ticks n h b) as [[[l h'] b'] |] eqn:E; [| auto].
  revert h b l E. induction n as [| n IH]; intros h b l E R.
  - simpl in E. inversion E; subst. exact R.
  - simpl in E. destruct (tick h b) as [[[h1 b1] i] |] eqn:T; [| discriminate].
    destruct (run_ticks n h1 b1) as [[[l1 h2] b2] |] eqn:E1; [| discriminate].
    inversion E; subst.
    eapply IH; [exact E1 |]. eapply rf_step; [exact R |]. econstructor; exact T.
Qed.

Lemma pasta_meal_after_reachable_from n :
  reachable_from main_heap (fst (pasta_meal_after n), snd (pasta_meal_after n)).
Proof.
  rewrite <- surjective_pairing. unfold pasta_meal_after. apply run_state_reachable_from.
  rewrite <- surjective_pairing. unfold pasta_meal.
  eapply rf_step; [apply (rf_init main_heap main_env main_cond) |].
  apply step_eat. simpl. lia.
Qed.

Lemma dispatch_settings h b h' b' i :
  dispatch h b = Some (h', b', i) ->
  env b' = env b /\ cond b' = cond b /\ microbiome b' = microbiome b /\
  (leptin (hormones b) = High -> leptin (hormones b') = High) /\
  (stage_of b' = stage_after (stage_of b) \/
   (timed (stage_of b) = true /\ stage_of b' = stage_of b)).
Proof.
  destruct b as [e c mb hs hl en st ps tk tt fd ca me so du si li].
  unfold dispatch. simpl. intros Hd.
  destruct st; simpl in *; break_in Hd; inversion Hd; subst; clear Hd; open_organs;
    repeat match goal with E : (_, _) = (_, _) |- _ => inversion E; subst; clear E end;
    simpl.
  all: try (unfold set_hunger_from_flags; simpl; destruct (obesity c), (7 <=? hl); simpl).
  all: intuition (try discriminate; try congruence).
Qed.

Lemma tick_enter_settings b :
  env (tick_enter b) = env b /\ cond (tick_enter b) = cond b /\
  microbiome (tick_enter b) = microbiome b /\
  leptin (hormones (tick_enter b)) = leptin (hormones b) /\
  stage_of (tick_enter b) = stage_of b.
Proof.
  destruct b as [e c mb hs hl en st ps tk tt fd ca me so du si li].
  unfold tick_enter. simpl.
  destruct (stage_changed _ _); [destruct st |]; simpl; repeat split;
    destruct (level_eqb _ _); reflexivity.
Qed.

Lemma microbiome_tick_antibiotic m : antibiotic (Microbiome_tick m) = antibiotic m.
Proof.
  unfold Microbiome_tick.
  destruct (qltb 0 (fiber_intake m)), (antibiotic m) eqn:A;
    match goal with |- context [qltb 0 ?t] => destruct (qltb 0 t) end; reflexivity.
Qed.

Lemma tick_settings h b h' b' i :
  tick h b = Some (h', b', i) ->
  env b' = env b /\ cond b' = cond b /\
  antibiotic (microbiome b') = antibiotic (microbiome b) /\
  (leptin (hormones b) = High -> leptin (hormones b') = High) /\
  (stage_of b' = stage_after (stage_of b) \/
   (timed (stage_of b) = true /\ stage_of b' = stage_of b)).
Proof.
  unfold tick. intros Ht.
  destruct (dispatch h (tick_enter b)) as [[[h1 b1] i1] |] eqn:E; [| discriminate].
  inversion Ht; subst.
  destruct (dispatch_settings _ _ _ _ _ E) as (D1 & D2 & D3 & D4 & D5).
  destruct (tick_enter_settings b) as (T1 & T2 & T3 & T4 & T5).
  rewrite T5 in D5. rewrite T4 in D4.
  unfold tick_finish.
  destruct b1 as [e1 c1 mb1 hs1 hl1 en1 st1 ps1 tk1 tt1 fd1 ca1 me1 so1 du1 si1 li1].
  cbn -[Microbiome_tick] in *. rewrite microbiome_tick_antibiotic. cbn. rewrite D1, D2, T1, T2. split; [reflexivity |].
  split; [reflexivity |]. split; [| tauto].
  rewrite D3, T3. reflexivity.
Qed.

Lemma eat_leptin h b l : leptin (hormones (snd (eat h b l))) = leptin (hormones b).
Proof. destruct b. reflexivity. Qed.

Lemma command_leptin c b : leptin (hormones (apply_command c b)) = leptin (hormones b).
Proof. destruct b, c; reflexivity. Qed.

Lemma round_half_even_bounds x : Qfloor x <= round_half_even x <= Qfloor x + 1.
Proof.
  unfold round_half_even.
  destruct (qltb _ (1 # 2)); [lia |]. destruct (qltb (1 # 2) _); [lia |].
  destruct (Z.even _); lia.
Qed.

Lemma round_half_even_mono x y : (x <= y)%Q -> round_half_even x <= round_half_even y.
Proof.
  intros H. pose proof (Qfloor_resp_le x y H) as F.
  destruct (Z.lt_ge_cases (Qfloor x) (Qfloor y)) as [L | L].
  - pose proof (round_half_even_bounds x). pose proof (round_half_even_bounds y). lia.
  - assert (E : Qfloor y = Qfloor x) by lia.
    unfold round_half_even. rewrite E. set (f := Qfloor x).
    repeat qcase; destruct (Z.even f); try lia; lra.
Qed.

Lemma round2_mono x y : (x <= y)%Q -> (round2 x <= round2 y)%Q.
Proof.
  intros H. unfold round2.
  assert (R : round_half_even (x * 100) <= round_half_even (y * 100))
    by (apply round_half_even_mono; lra).
  apply Qmult_le_compat_r; [rewrite <- Zle_Qle; exact R | discriminate].
Qed.

(* ------------------------------------------------------------------ *)
(** * The claims *)

(** C1: with the main loop's environment the stomach timer is 4, yet the
    stomach stage is dispatched on for six ticks, so the stage list of one
    meal is not mouth, esophagus, stomach four times, duodenum twice,
    small_intestine 18 times, large_intestine 36 times, rectum. *)
Lemma meal_spec_counterexample :
  organ_timer stomach (snd (run_state 3 (fst pasta_meal) (snd pasta_meal))) = 4 /\
  match run_ticks (List.length (spec_meal_stages 4)) (fst pasta_meal) (snd pasta_meal) with
  | Some (l, _, _) => l <> spec_meal_stages 4
  | None => False
  end.
Proof. vm_compute. split; [reflexivity | discriminate]. Qed.

(** Witness of C1: the pasta meal of [main_loop]. *)
Lemma meal_run_witness :
  stomach_of (Body_new main_env main_cond) = Stomach_new /\
  duodenum_of (Body_new main_env main_cond) = Duodenum_new /\
  small_intestine_of (Body_new main_env main_cond) = SmallIntestine_new /\
  large_intestine_of (Body_new main_env main_cond) = LargeIntestine_new /\
  exists h' b',
    run_ticks (4 + 64) (fst pasta_meal) (snd pasta_meal) = Some (meal_stages 4, h', b') /\
    stage_of b' = idle.
Proof.
  split; [reflexivity |]. split; [reflexivity |]. split; [reflexivity |].
  split; [reflexivity |].
  exact (meal_run main_heap (Body_new main_env main_cond) 2%nat
           eq_refl eq_refl eq_refl eq_refl).
Defined.

(** C2 (amended). [Stomach.start_digestion] sets the stomach timer to the
    double-precision value of the formula
    max(2, floor(6 / (gastrin_factor * temp_factor * hunger_factor)
    * disease_factor / stress_factor)). This equals the exact value of the
    formula except when the exact value is 16 and the doubles give 15, and
    that happens exactly when gastrin is Low, gastroparesis is set without
    gerd, stress is below 6, and either ghrelin is not High with a
    temperature below 36 or ghrelin is High with a temperature from 36 to
    38. With gastrin and ghrelin Normal, stress below 6, temperature 37 and
    neither gastroparesis nor gerd, the timer is 6. *)
Theorem start_digestion_timer s h l hs c e :
  exists h' s' i, Stomach_start_digestion s h (Some l) hs c e = Some (h', s', i) /\
    (st_timer s' = spec_stomach_duration hs c e \/
     (st_timer s' = 15 /\ spec_stomach_duration hs c e = 16)) /\
    (st_timer s' <> spec_stomach_duration hs c e <->
     gastrin hs = Low /\ gastroparesis c = true /\ gerd c = false /\ stress_level e < 6 /\
     ((ghrelin hs <> High /\ (temperature_c e < 36)%Q) \/
      (ghrelin hs = High /\ (36 <= temperature_c e <= 38)%Q))) /\
    (gastrin hs = Normal -> ghrelin hs = Normal -> stress_level e < 6 ->
     (temperature_c e == 37)%Q -> gastroparesis c = false -> gerd c = false ->
     st_timer s' = 6).
Proof.
  unfold Stomach_start_digestion.
  destruct (alloc h (copy_food (read h l))) as [l' h'].
  do 3 eexists. split; [reflexivity |]. simpl. split; [| split].
  - apply stomach_duration_vs_exact.
  - apply stomach_duration_mismatch.
  - intros; apply stomach_duration_default; assumption.
Qed.

(** Witness of C2: the main loop's environment and conditions. *)
Lemma start_digestion_timer_witness :
  exists h' s' i,
    Stomach_start_digestion Stomach_new main_heap (Some 2%nat)
      (mkHormones Normal Normal Normal Normal Normal) main_cond main_env = Some (h', s', i) /\
    st_timer s' = 6.
Proof.
  destruct (start_digestion_timer Stomach_new main_heap 2%nat
              (mkHormones Normal Normal Normal Normal Normal) main_cond main_env)
    as (h' & s' & i & E & _ & _ & D).
  exists h', s', i. split; [exact E |].
  apply D; [reflexivity | reflexivity | vm_compute; reflexivity |
            vm_compute; reflexivity | reflexivity | reflexivity].
Defined.

(** C2: with gastrin Low, temperature 35, stress 2 and gastroparesis, the
    exact formula gives 6 / (0.75 * 0.9) * 1.8 = 16 but the timer is 15. *)
Lemma start_digestion_counterexample :
  match Stomach_start_digestion Stomach_new main_heap (Some 2%nat)
          (mkHormones Normal Low Normal Normal Normal)
          (mkConditions true false false false false) (mkEnvironment 35 2) with
  | Some (_, s', _) => st_timer s' = 15
  | None => False
  end /\
  spec_stomach_duration (mkHormones Normal Low Normal Normal Normal)
    (mkConditions true false false false false) (mkEnvironment 35 2) = 16.
Proof. vm_compute. split; reflexivity. Qed.

(** C3. For every microbiome reached from [Microbiome()] by ticks with any
    fiber intake and antibiotic setting, the next tick leaves
    good_bacteria + bad_bacteria equal to 100. *)
Theorem microbiome_sum m fib ab :
  mb_reachable m ->
  let m' := Microbiome_tick (mkMicrobiome (good_bacteria m) (bad_bacteria m) fib ab) in
  (good_bacteria m' + bad_bacteria m' == 100)%Q.
Proof.
  intros R m'. exact (proj2 (proj2 (mb_reachable_inv _ (mb_reach_tick m fib ab R)))).
Qed.

(** Witness of C3: the first tick of a fresh microbiome on pasta. *)
Lemma microbiome_sum_witness :
  mb_reachable Microbiome_new /\
  (good_bacteria (Microbiome_tick (mkMicrobiome 70 30 3 false)) +
   bad_bacteria (Microbiome_tick (mkMicrobiome 70 30 3 false)) == 100)%Q.
Proof.
  split; [constructor |].
  exact (microbiome_sum Microbiome_new 3 false mb_reach_init).
Defined.

(** C4. No step of the simulation (a tick, a meal, a command) decreases
    [Body.energy]. *)
Theorem energy_nondecreasing s s' :
  sim_step s s' -> (energy (snd s) <= energy (snd s'))%Q.
Proof.
  intros H. destruct H as [h b h' b' i T | h b l L | h b c].
  - exact (tick_energy _ _ _ _ _ T).
  - destruct (eat_fields h b l) as (_ & _ & _ & E). rewrite E. apply Qle_refl.
  - destruct (command_fields c b) as (_ & _ & _ & E). simpl. rewrite E. apply Qle_refl.
Qed.

(** Witness of C4: eating the pasta. *)
Lemma energy_nondecreasing_witness :
  sim_step (main_heap, Body_new main_env main_cond) pasta_meal /\
  (energy (Body_new main_env main_cond) <= energy (snd pasta_meal))%Q.
Proof.
  assert (H : sim_step (main_heap, Body_new main_env main_cond) pasta_meal)
    by (apply step_eat; simpl; lia).
  split; [exact H | exact (energy_nondecreasing _ _ H)].
Defined.

(** C5. When [SmallIntestine.absorb_tick] completes with stored food of
    non-negative composition c, p, f, it reports absorbed masses
    c * 0.95 * m, p * 0.9 * m, f * 0.85 * m (m = 0.65 under malabsorption,
    else 1.0) and energy (carbs*4 + proteins*4 + fats*9) * r (r = 0.75
    under diabetes or obesity, else 1.0). With no flag set and the food
    70, 20, 10, the masses are 66.5, 18.0, 8.5 and the energy 414.5. *)
Theorem absorb_tick_complete :
  (forall si h cnd en hs l,
    si_timer si = 0 -> si_food si = Some l ->
    (0 <= carbs (read h l))%Q -> (0 <= proteins (read h l))%Q ->
    (0 <= fats (read h l))%Q ->
    exists a e,
      SmallIntestine_absorb_tick si h cnd en hs = Some (si, SIDone a e) /\
      let m := if malabsorption cnd then 0.65%Q else 1.0%Q in
      let r := if diabetes cnd || obesity cnd then 0.75%Q else 1.0%Q in
      (ab_carbs a == carbs (read h l) * 0.95 * m)%Q /\
      (ab_proteins a == proteins (read h l) * 0.9 * m)%Q /\
      (ab_fats a == fats (read h l) * 0.85 * m)%Q /\
      (e == (ab_carbs a * 4 + ab_proteins a * 4 + ab_fats a * 9) * r)%Q) /\
  (forall si h cnd en hs l,
    si_timer si = 0 -> si_food si = Some l ->
    malabsorption cnd = false -> diabetes cnd = false -> obesity cnd = false ->
    (carbs (read h l) == 70)%Q -> (proteins (read h l) == 20)%Q ->
    (fats (read h l) == 10)%Q ->
    exists a e,
      SmallIntestine_absorb_tick si h cnd en hs = Some (si, SIDone a e) /\
      (ab_carbs a == 66.5)%Q /\ (ab_proteins a == 18.0)%Q /\
      (ab_fats a == 8.5)%Q /\ (e == 414.5)%Q).
Proof.
  split.
  - exact absorb_tick_done_gen.
  - intros si h cnd en hs l Ht Hf Hm Hd Ho Hc Hp Hfa.
    destruct (absorb_tick_done_gen si h cnd en hs l Ht Hf) as (a & e & E & R);
      [lra | lra | lra |].
    rewrite Hm, Hd, Ho in R. simpl in R. destruct R as (R1 & R2 & R3 & R4).
    exists a, e. split; [exact E |]. repeat split; lra.
Qed.

(** Witness of C5: the pasta stored in a small intestine whose timer ran
    out. *)
Lemma absorb_tick_complete_witness :
  exists a e,
    SmallIntestine_absorb_tick (mkSmallIntestine 0 (Some 2%nat)) main_heap main_cond main_env
      (mkHormones Normal Normal Normal Normal Normal) =
      Some (mkSmallIntestine 0 (Some 2%nat), SIDone a e) /\
    (ab_carbs a == 66.5)%Q /\ (ab_proteins a == 18.0)%Q /\
    (ab_fats a == 8.5)%Q /\ (e == 414.5)%Q.
Proof.
  apply (proj2 absorb_tick_complete _ _ _ _ _ 2%nat); vm_compute; reflexivity.
Defined.

(** C6: for the absorbed masses 66.5, 18.0, 8.5 the energy added is 270.75,
    not 270.15. *)
Lemma metabolize_counterexample :
  let '(_, _, _, energy_added) := metabolize_parts (mkAbsorbed 66.5 18.0 8.5) in
  (energy_added == 270.75)%Q /\ ~ (energy_added == 270.15)%Q.
Proof. vm_compute. split; [reflexivity | intros H; discriminate H]. Qed.

(** C6 (amended). [Body.metabolize] computes glycogen = min(100, carbs *
    0.6), fat_storage = fats * 0.7, protein_use = proteins * 0.8 and
    energy_added = glycogen*4 + protein_use*4 + fat_storage*9, and raises
    [Body.energy] by exactly energy_added. For the absorbed masses 66.5,
    18.0, 8.5 these are 39.9, 5.95, 14.4 and 270.75, also after rounding
    to two decimals as reported. *)
Theorem metabolize_spec b a :
  let '(glycogen, fat_storage, protein_use, energy_added) := metabolize_parts a in
  (glycogen == Qmin 100 (ab_carbs a * 0.6))%Q /\
  (fat_storage == ab_fats a * 0.7)%Q /\
  (protein_use == ab_proteins a * 0.8)%Q /\
  (energy_added == glycogen * 4 + protein_use * 4 + fat_storage * 9)%Q /\
  (energy (fst (metabolize b a)) == energy b + energy_added)%Q /\
  ((ab_carbs a == 66.5)%Q -> (ab_proteins a == 18.0)%Q -> (ab_fats a == 8.5)%Q ->
   (glycogen == 39.9)%Q /\ (fat_storage == 5.95)%Q /\ (protein_use == 14.4)%Q /\
   (energy_added == 270.75)%Q).
Proof.
  pose proof (metabolize_energy_gen b a) as H. revert H.
  destruct (metabolize_parts a) as [[[g f] p] ea].
  intros (G & F & P & EA & EN).
  split; [exact G |]. split; [exact F |]. split; [exact P |].
  split; [exact EA |]. split; [exact EN |].
  intros Hc Hp Hf. split; [| split; [| split]].
  - rewrite G, Hc. rewrite Q.min_r; [reflexivity | lra].
  - rewrite F, Hf. reflexivity.
  - rewrite P, Hp. reflexivity.
  - rewrite EA, G, P, F, Hc, Hp, Hf. rewrite Q.min_r; [reflexivity | lra].
Qed.

(** Witness of C6: the masses absorbed from the pasta. *)
Lemma metabolize_spec_witness :
  let '(glycogen, fat_storage, protein_use, energy_added) :=
    metabolize_parts (mkAbsorbed 66.5 18.0 8.5) in
  (glycogen == 39.9)%Q /\ (fat_storage == 5.95)%Q /\ (protein_use == 14.4)%Q /\
  (energy_added == 270.75)%Q.
Proof.
  pose proof (metabolize_spec (Body_new main_env main_cond) (mkAbsorbed 66.5 18.0 8.5)) as H.
  revert H. destruct (metabolize_parts (mkAbsorbed 66.5 18.0 8.5)) as [[[g f] p] ea].
  intros (_ & _ & _ & _ & _ & I). apply I; vm_compute; reflexivity.
Defined.

(** C7: skipping while the stomach has not started leaves the stage in
    the stomach with a fresh timer of 4; skipping in a started stomach
    reaches the duodenum with its timer at 0 instead of 2. *)
Lemma skip_counterexample :
  (let '(h, b) := run_state 2 (fst pasta_meal) (snd pasta_meal) in
   stage_of b = stomach /\
   match tick h (apply_command CmdSkip b) with
   | Some (_, b', _) => stage_of b' = stomach /\ organ_timer stomach b' = 4
   | None => False
   end) /\
  (let '(h, b) := run_state 3 (fst pasta_meal) (snd pasta_meal) in
   match tick h (apply_command CmdSkip b) with
   | Some (_, b', _) => stage_of b' = duodenum /\ organ_timer duodenum b' <> TIME_MAP_Duodenum
   | None => False
   end).
Proof. vm_compute. split; [split; [reflexivity | split; reflexivity] |]. split; [reflexivity | discriminate]. Qed.

(** C7 (code bug). When the skip command is issued in the stomach stage
    before digestion has begun, the next tick does not complete the stage:
    it starts digestion with a fresh stomach timer between 4 and 21 and the
    stage stays stomach, while the other organ timers stay 0. *)
Theorem skip_lost_in_unstarted_stomach h b :
  reachable (h, b) -> stage_of b = stomach -> st_food (stomach_of b) = None ->
  exists h' b' i, tick h (apply_command CmdSkip b) = Some (h', b', i) /\
    stage_of b' = stomach /\ 4 <= organ_timer stomach b' <= 21 /\
    (forall s, s <> stomach -> organ_timer s b' = 0).
Proof.
  intros R Hs Hsf.
  pose proof (reachable_safe _ R) as Sf. simpl in Sf. unfold tick_safe in Sf.
  rewrite Hs in Sf.
  destruct (skip_fields b) as (K1 & K2 & K3).
  destruct (command_fields CmdSkip b) as (C1 & C2 & _).
  destruct (food b) as [l |] eqn:F; [| congruence].
  destruct (tick_enter_fields (apply_command CmdSkip b))
    as (E1 & E2 & E3 & E4 & E5 & E6 & E7 & E8 & _).
  destruct (dispatch_stomach_start h (tick_enter (apply_command CmdSkip b)) l)
    as (h' & b' & i & D & S1 & Q1 & Q2 & Q3 & Q4 & Q5 & Q6 & Q7 & Q8);
    [congruence | congruence | congruence |].
  exists h', (tick_finish h' b'), i. split; [now apply tick_lift |].
  destruct (tick_finish_fields h' b') as (G1 & G2 & G3 & G4 & G5 & G6 & G7 & G8 & _).
  split; [congruence |]. split.
  - unfold organ_timer. rewrite G3, Q2. apply stomach_duration_range_gen.
  - intros s Hn. pose proof (K3 s) as K.
    destruct s; unfold organ_timer in *; congruence.
Qed.

(** Witness of C7: skip two ticks after the pasta is eaten. *)
Lemma skip_lost_in_unstarted_stomach_witness :
  stage_of (snd (pasta_meal_after 2)) = stomach /\
  st_food (stomach_of (snd (pasta_meal_after 2))) = None /\
  exists h' b' i,
    tick (fst (pasta_meal_after 2)) (apply_command CmdSkip (snd (pasta_meal_after 2))) =
      Some (h', b', i) /\
    stage_of b' = stomach /\ 4 <= organ_timer stomach b' <= 21 /\
    (forall s, s <> stomach -> organ_timer s b' = 0).
Proof.
  assert (Hs : stage_of (snd (pasta_meal_after 2)) = stomach) by (vm_compute; reflexivity).
  assert (Hf : st_food (stomach_of (snd (pasta_meal_after 2))) = None)
    by (vm_compute; reflexivity).
  split; [exact Hs |]. split; [exact Hf |].
  exact (skip_lost_in_unstarted_stomach _ _ (pasta_meal_after_reachable 2) Hs Hf).
Defined.

(** X18. In a reachable state whose stage is timed and has started (for
    the stomach: digestion has begun), the skip command followed by one tick
    moves to the next stage, and all four organ timers are then 0. *)
Theorem skip_then_tick h b :
  reachable (h, b) -> timed (stage_of b) = true ->
  (stage_of b = stomach -> st_food (stomach_of b) <> None) ->
  exists h' b' i, tick h (apply_command CmdSkip b) = Some (h', b', i) /\
    stage_of b' = next_stage (stage_of b) /\ (forall s, organ_timer s b' = 0).
Proof.
  intros R Ht Hst.
  pose proof (reachable_safe _ R) as Sf. simpl in Sf. unfold tick_safe in Sf.
  destruct (skip_fields b) as (K1 & K2 & K3).
  destruct (command_fields CmdSkip b) as (C1 & C2 & C3 & _).
  destruct (stage_of b) eqn:Es; try discriminate Ht.
  - destruct (tick_stomach_finish h (apply_command CmdSkip b))
      as (h' & b' & i & T & S & _ & _ & _ & F);
      [congruence | rewrite K2; auto | rewrite K3; lia |].
    exists h', b', i. split; [exact T |]. split; [exact S |].
    intros s. rewrite F. apply K3.
  - destruct (tick_duodenum_finish h (apply_command CmdSkip b))
      as (h' & b' & i & T & S & _ & _ & _ & F);
      [congruence | rewrite K3; lia | congruence |].
    exists h', b', i. split; [exact T |]. split; [exact S |].
    intros s. rewrite F. apply K3.
  - destruct (tick_small_intestine_finish h (apply_command CmdSkip b))
      as (b' & i & T & S & _ & _ & F);
      [congruence | rewrite K3; lia | congruence |].
    exists h, b', i. split; [exact T |]. split; [exact S |].
    intros s. rewrite F. apply K3.
  - destruct (tick_large_intestine_finish h (apply_command CmdSkip b))
      as (b' & i & T & S & _ & _ & F);
      [congruence | rewrite K3; lia |].
    exists h, b', i. split; [exact T |]. split; [exact S |].
    intros s. rewrite F. apply K3.
Qed.

(** Witness of X18: skip after the pasta's stomach digestion has begun. *)
Lemma skip_then_tick_witness :
  reachable (run_state 3 (fst pasta_meal) (snd pasta_meal)) /\
  exists h' b' i,
    tick (fst (run_state 3 (fst pasta_meal) (snd pasta_meal)))
      (apply_command CmdSkip (snd (run_state 3 (fst pasta_meal) (snd pasta_meal)))) =
      Some (h', b', i) /\ stage_of b' = duodenum /\ (forall s, organ_timer s b' = 0).
Proof.
  assert (R : reachable (run_state 3 (fst pasta_meal) (snd pasta_meal)))
    by (apply run_state_reachable; exact pasta_meal_reachable).
  split; [exact R |].
  destruct (run_state 3 (fst pasta_meal) (snd pasta_meal)) as [h b] eqn:E.
  assert (Hs : stage_of b = stomach)
    by (change b with (snd (h, b)); rewrite <- E; vm_compute; reflexivity).
  assert (Hf : st_food (stomach_of b) <> None)
    by (change b with (snd (h, b)); rewrite <- E; vm_compute; discriminate).
  destruct (skip_then_tick h b R) as (h' & b' & i & T & S & Z0);
    [rewrite Hs; reflexivity | intros _; exact Hf |].
  exists h', b', i. split; [exact T |]. split; [rewrite S, Hs; reflexivity | exact Z0].
Defined.

(** C8. [Body.tick] raises in no reachable state of the simulation. *)
Theorem tick_never_raises h b : reachable (h, b) -> exists r, tick h b = Some r.
Proof. intros R. apply tick_some. exact (reachable_safe _ R). Qed.

(** Witness of C8: the first tick after eating the pasta. *)
Lemma tick_never_raises_witness :
  reachable pasta_meal /\ exists r, tick (fst pasta_meal) (snd pasta_meal) = Some r.
Proof.
  split; [exact pasta_meal_reachable |].
  apply tick_never_raises. exact pasta_meal_reachable.
Defined.

(** C9. For a microbiome with good + bad = 100, both within [0, 100], a
    positive fiber intake and no antibiotic, one tick does not decrease
    good_bacteria and does not increase bad_bacteria. *)
Theorem microbiome_fiber_monotone m :
  (good_bacteria m + bad_bacteria m == 100)%Q ->
  (0 <= good_bacteria m <= 100)%Q -> (0 <= bad_bacteria m <= 100)%Q ->
  (0 < fiber_intake m)%Q -> antibiotic m = false ->
  (good_bacteria m <= good_bacteria (Microbiome_tick m))%Q /\
  (bad_bacteria (Microbiome_tick m) <= bad_bacteria m)%Q.
Proof. exact (mb_fiber_monotone_gen m). Qed.

(** Witness of C9: a fresh microbiome fed the pasta's fiber. *)
Lemma microbiome_fiber_monotone_witness :
  (good_bacteria (mkMicrobiome 70 30 3 false) <=
   good_bacteria (Microbiome_tick (mkMicrobiome 70 30 3 false)))%Q /\
  (bad_bacteria (Microbiome_tick (mkMicrobiome 70 30 3 false)) <=
   bad_bacteria (mkMicrobiome 70 30 3 false))%Q.
Proof.
  apply microbiome_fiber_monotone; simpl;
    [vm_compute; reflexivity | split; vm_compute; discriminate |
     split; vm_compute; discriminate | vm_compute; reflexivity | reflexivity].
Defined.

(** C10. [Body.eat] stores a new copy of the caller's food (writing to the
    caller's object afterwards leaves it unchanged), sets the stage to
    mouth, ghrelin to Low, insulin to Slight and the hunger level to
    max(0, hunger - 3), and leaves energy, microbiome and tick counters
    unchanged. *)
Theorem eat_spec h b l :
  (l < next_loc h)%nat ->
  let '(h', b') := eat h b l in
  exists l', food b' = Some l' /\ l' <> l /\ read h' l' = read h l /\
    read h' l = read h l /\
    (forall f, read (write h' l f) l' = read h l) /\
    stage_of b' = mouth /\ ghrelin (hormones b') = Low /\
    insulin (hormones b') = Slight /\
    hunger_level b' = Z.max 0 (hunger_level b - 3) /\
    energy b' = energy b /\ microbiome b' = microbiome b /\
    ticks b' = ticks b /\ total_ticks b' = total_ticks b.
Proof.
  intros Hl. unfold eat.
  destruct (alloc h (copy_food (read h l))) as [l' h'] eqn:A.
  assert (El : l' = next_loc h) by (inversion A; reflexivity).
  assert (R1 : read h' l' = read h l).
  { replace h' with (snd (alloc h (copy_food (read h l)))) by (rewrite A; reflexivity).
    replace l' with (fst (alloc h (copy_food (read h l)))) by (rewrite A; reflexivity).
    rewrite alloc_read_new. apply copy_food_id. }
  assert (R2 : read h' l = read h l).
  { replace h' with (snd (alloc h (copy_food (read h l)))) by (rewrite A; reflexivity).
    unfold read, alloc. simpl. rewrite (proj2 (Nat.eqb_neq _ _)) by lia. reflexivity. }
  assert (Hn : l' <> l) by lia.
  exists l'. destruct b. cbn [food stage_of hormones hunger_level energy microbiome ticks
    total_ticks set_food set_stage set_hormones set_hunger_level ghrelin insulin
    set_ghrelin set_insulin].
  split; [reflexivity |]. split; [exact Hn |]. split; [exact R1 |]. split; [exact R2 |].
  split; [intros f; rewrite read_write_other by exact Hn; exact R1 |].
  repeat split.
Qed.

(** Witness of C10: eating the pasta of the menu. *)
Lemma eat_spec_witness :
  (2 < next_loc main_heap)%nat /\
  let '(h', b') := eat main_heap (Body_new main_env main_cond) 2%nat in
  exists l', food b' = Some l' /\ l' <> 2%nat /\ read h' l' = read main_heap 2%nat /\
    read h' 2%nat = read main_heap 2%nat /\
    (forall f, read (write h' 2%nat f) l' = read main_heap 2%nat) /\
    stage_of b' = mouth /\ ghrelin (hormones b') = Low /\
    insulin (hormones b') = Slight /\
    hunger_level b' = Z.max 0 (hunger_level (Body_new main_env main_cond) - 3) /\
    energy b' = energy (Body_new main_env main_cond) /\
    microbiome b' = microbiome (Body_new main_env main_cond) /\
    ticks b' = ticks (Body_new main_env main_cond) /\
    total_ticks b' = total_ticks (Body_new main_env main_cond).
Proof.
  assert (H : (2 < next_loc main_heap)%nat) by (simpl; lia).
  split; [exact H | exact (eat_spec main_heap (Body_new main_env main_cond) 2%nat H)].
Defined.

(* ------------------------------------------------------------------ *)
(** * Further properties of the code *)

(** X1. [Stomach.start_digestion] with no food raises. With a food it sets the stomach timer to a value between 4 and 21, so the floor [max(2, ...)] never decides the timer, and it stores a new object (the next free location) holding the same fields as the food, leaving every existing object unchanged. *)
Theorem start_digestion_timer_range s h hs c e :
  Stomach_start_digestion s h None hs c e = None /\
  forall l, exists h' s' i,
    Stomach_start_digestion s h (Some l) hs c e = Some (h', s', i) /\
    4 <= st_timer s' <= 21 /\
    st_food s' = Some (next_loc h) /\ read h' (next_loc h) = read h l /\
    (forall l', (l' < next_loc h)%nat -> read h' l' = read h l').
Proof.
  split; [reflexivity |]. intros l.
  unfold Stomach_start_digestion. simpl.
  do 3 eexists. split; [reflexivity |]. simpl.
  split; [apply stomach_duration_range_gen |]. split; [reflexivity |].
  split.
  - unfold read. simpl. rewrite Nat.eqb_refl. apply copy_food_id.
  - intros l' Hl. unfold read. simpl.
    destruct (Nat.eqb_spec l' (next_loc h)); [lia | reflexivity].
Qed.

(** X2. [Mouth.process] changes only the carbs of the food object it is given: a non-negative carb value is reduced to between 94.25% and 96.25% of itself, a non-positive one becomes 0, and no other object or field changes. *)
Theorem mouth_process_chewing h l hs e :
  let h' := fst (Mouth_process h l hs e) in
  let f := read h l in
  let f' := read h' l in
  name f' = name f /\ proteins f' = proteins f /\ fats f' = fats f /\
  fiber f' = fiber f /\
  (forall l', l' <> l -> read h' l' = read h l') /\ next_loc h' = next_loc h /\
  ((0 <= carbs f)%Q -> (carbs f * 0.9425 <= carbs f' <= carbs f * 0.9625)%Q) /\
  ((carbs f <= 0)%Q -> (carbs f' == 0)%Q).
Proof.
  unfold Mouth_process. cbv zeta. cbn [fst].
  set (c := carbs (read h l)).
  assert (RW : forall q, read (write h l q) l = q)
    by (intros q; unfold read, write; simpl; now rewrite Nat.eqb_refl).
  rewrite RW. cbn [name proteins fats fiber carbs].
  repeat split; try reflexivity.
  - intros l' Hl'. now apply read_write_other.
  - destruct (_ && _); [| destruct (_ || _)]; unfold py_max; qcase; lra.
  - destruct (_ && _); [| destruct (_ || _)]; unfold py_max; qcase; lra.
  - destruct (_ && _); [| destruct (_ || _)]; unfold py_max; qcase; lra.
Qed.

(** X3. Without fiber and without antibiotic, [Microbiome.tick] leaves a microbiome whose shares sum to 100 unchanged (up to the representation of the rationals). *)
Theorem microbiome_tick_steady m :
  (fiber_intake m <= 0)%Q -> antibiotic m = false ->
  (good_bacteria m + bad_bacteria m == 100)%Q ->
  (good_bacteria (Microbiome_tick m) == good_bacteria m)%Q /\
  (bad_bacteria (Microbiome_tick m) == bad_bacteria m)%Q.
Proof.
  destruct m as [g b fi ab]. cbn [good_bacteria bad_bacteria fiber_intake antibiotic].
  intros Hf Ha Hs. subst ab.
  unfold Microbiome_tick. cbn [good_bacteria bad_bacteria fiber_intake antibiotic].
  destruct (qltb 0 fi) eqn:E; [apply qltb_true in E; lra |].
  rewrite (qltb_true_intro 0 (g + b)) by lra.
  cbn [good_bacteria bad_bacteria].
  rewrite !Qred_correct. rewrite Hs. split; field.
Qed.

Lemma microbiome_tick_steady_witness :
  (fiber_intake (mkMicrobiome 64 36 0 false) <= 0)%Q /\
  antibiotic (mkMicrobiome 64 36 0 false) = false /\
  (good_bacteria (mkMicrobiome 64 36 0 false) + bad_bacteria (mkMicrobiome 64 36 0 false) == 100)%Q /\
  (good_bacteria (Microbiome_tick (mkMicrobiome 64 36 0 false)) == 64)%Q /\
  (bad_bacteria (Microbiome_tick (mkMicrobiome 64 36 0 false)) == 36)%Q.
Proof.
  assert (H1 : (fiber_intake (mkMicrobiome 64 36 0 false) <= 0)%Q) by (simpl; lra).
  assert (H3 : (good_bacteria (mkMicrobiome 64 36 0 false) +
                bad_bacteria (mkMicrobiome 64 36 0 false) == 100)%Q) by (simpl; lra).
  split; [exact H1 |]. split; [reflexivity |]. split; [exact H3 |].
  exact (microbiome_tick_steady _ H1 eq_refl H3).
Defined.

(** X4. With the antibiotic on and no fiber, from shares summing to 100 with good at least 5 and bad at least 2, the new good share is (good - 5) * 100 / 93; it exceeds the old one exactly when good was above 500/7. *)
Theorem antibiotic_renormalisation m :
  (fiber_intake m <= 0)%Q -> antibiotic m = true ->
  (good_bacteria m + bad_bacteria m == 100)%Q ->
  (5 <= good_bacteria m)%Q -> (2 <= bad_bacteria m)%Q ->
  (good_bacteria (Microbiome_tick m) == (good_bacteria m - 5) * 100 / 93)%Q /\
  ((good_bacteria m < good_bacteria (Microbiome_tick m))%Q <-> (500 # 7 < good_bacteria m)%Q).
Proof.
  destruct m as [g b fi ab]. cbn [good_bacteria bad_bacteria fiber_intake antibiotic].
  intros Hf Ha Hs Hg Hb. subst ab.
  unfold Microbiome_tick. cbn [good_bacteria bad_bacteria fiber_intake antibiotic].
  destruct (qltb 0 fi) eqn:E; [apply qltb_true in E; lra |].
  cbv beta iota.
  pose proof (py_max_0_id (g - 5.0)) as G0. pose proof (py_max_0_id (b - 2.0)) as B0.
  set (G1 := py_max 0 (g - 5.0)) in *. set (B1 := py_max 0 (b - 2.0)) in *.
  assert (T : (G1 + B1 == 93)%Q) by (rewrite G0, B0; lra).
  rewrite (qltb_true_intro 0 (G1 + B1)) by lra.
  cbn [good_bacteria].
  rewrite Qred_correct. rewrite T. rewrite G0 by lra.
  assert (G : ((g - 5.0) / 93 * 100 == (g - 5) * 100 / 93)%Q) by field.
  split; [exact G |]. rewrite G.
  assert (G' : ((g - 5) * 100 / 93 == (g - 5) * (100 # 93))%Q) by field.
  rewrite G'. split; intros H; lra.
Qed.

Lemma antibiotic_renormalisation_witness :
  (fiber_intake (mkMicrobiome 80 20 0 true) <= 0)%Q /\
  (good_bacteria (mkMicrobiome 80 20 0 true) + bad_bacteria (mkMicrobiome 80 20 0 true) == 100)%Q /\
  (5 <= good_bacteria (mkMicrobiome 80 20 0 true))%Q /\
  (2 <= bad_bacteria (mkMicrobiome 80 20 0 true))%Q /\
  (good_bacteria (mkMicrobiome 80 20 0 true) <
   good_bacteria (Microbiome_tick (mkMicrobiome 80 20 0 true)))%Q.
Proof.
  assert (H1 : (fiber_intake (mkMicrobiome 80 20 0 true) <= 0)%Q) by (simpl; lra).
  assert (H3 : (good_bacteria (mkMicrobiome 80 20 0 true) +
                bad_bacteria (mkMicrobiome 80 20 0 true) == 100)%Q) by (simpl; lra).
  assert (H4 : (5 <= good_bacteria (mkMicrobiome 80 20 0 true))%Q) by (simpl; lra).
  assert (H5 : (2 <= bad_bacteria (mkMicrobiome 80 20 0 true))%Q) by (simpl; lra).
  split; [exact H1 |]. split; [exact H3 |]. split; [exact H4 |]. split; [exact H5 |].
  apply (proj2 (antibiotic_renormalisation _ H1 eq_refl H3 H4 H5)). simpl. lra.
Defined.

(** X5. [Microbiome.gas_production] is monotone: more bad bacteria and more fiber never give less gas. *)
Theorem gas_production_monotone m1 m2 :
  (bad_bacteria m1 <= bad_bacteria m2)%Q -> (fiber_intake m1 <= fiber_intake m2)%Q ->
  (gas_production m1 <= gas_production m2)%Q.
Proof. intros Hb Hf. unfold gas_production. apply round2_mono. lra. Qed.

Lemma gas_production_monotone_witness :
  (bad_bacteria (mkMicrobiome 70 30 0 false) <= bad_bacteria (mkMicrobiome 60 40 3 false))%Q /\
  (fiber_intake (mkMicrobiome 70 30 0 false) <= fiber_intake (mkMicrobiome 60 40 3 false))%Q /\
  (gas_production (mkMicrobiome 70 30 0 false) <= gas_production (mkMicrobiome 60 40 3 false))%Q.
Proof.
  assert (H1 : (bad_bacteria (mkMicrobiome 70 30 0 false) <=
                bad_bacteria (mkMicrobiome 60 40 3 false))%Q) by (simpl; lra).
  assert (H2 : (fiber_intake (mkMicrobiome 70 30 0 false) <=
                fiber_intake (mkMicrobiome 60 40 3 false))%Q) by (simpl; lra).
  split; [exact H1 |]. split; [exact H2 |].
  exact (gas_production_monotone _ _ H1 H2).
Defined.

(** X6. [Microbiome.gas_production] is non-negative when the bad bacteria and the fiber intake are. *)
Theorem gas_production_nonneg m :
  (0 <= bad_bacteria m)%Q -> (0 <= fiber_intake m)%Q -> (0 <= gas_production m)%Q.
Proof.
  intros Hb Hf. unfold gas_production.
  assert (Z0 : (round2 0 == 0)%Q) by reflexivity.
  rewrite <- Z0. apply round2_mono. lra.
Qed.

Lemma gas_production_nonneg_witness :
  (0 <= bad_bacteria (mkMicrobiome 70 30 3 false))%Q /\
  (0 <= fiber_intake (mkMicrobiome 70 30 3 false))%Q /\
  (0 <= gas_production (mkMicrobiome 70 30 3 false))%Q.
Proof.
  assert (H1 : (0 <= bad_bacteria (mkMicrobiome 70 30 3 false))%Q) by (simpl; lra).
  assert (H2 : (0 <= fiber_intake (mkMicrobiome 70 30 3 false))%Q) by (simpl; lra).
  split; [exact H1 |]. split; [exact H2 |].
  exact (gas_production_nonneg _ H1 H2).
Defined.

(** X7. [Conditions.active] lists each condition name at most once, lists a name exactly when its flag is set, and is empty exactly when no flag is set. *)
Theorem conditions_active_members c :
  NoDup (Conditions_active c) /\
  (In "gastroparesis"%string (Conditions_active c) <-> gastroparesis c = true) /\
  (In "gerd"%string (Conditions_active c) <-> gerd c = true) /\
  (In "malabsorption"%string (Conditions_active c) <-> malabsorption c = true) /\
  (In "diabetes"%string (Conditions_active c) <-> diabetes c = true) /\
  (In "obesity"%string (Conditions_active c) <-> obesity c = true) /\
  (Conditions_active c = [] <-> c = mkConditions false false false false false).
Proof.
  destruct c as [[] [] [] [] []]; unfold Conditions_active, Conditions_items; simpl;
    repeat split; try (repeat constructor; simpl; intuition discriminate);
    intuition (try discriminate; try congruence).
Qed.

(** X8. In every reachable state the hunger level lies between 0 and 10. *)
Theorem hunger_level_bounded h b : reachable (h, b) -> 0 <= hunger_level b <= 10.
Proof. intros R. apply (reachable_body_inv _ R). Qed.

Lemma hunger_level_bounded_witness :
  reachable (fst (pasta_meal_after 80), snd (pasta_meal_after 80)) /\
  0 <= hunger_level (snd (pasta_meal_after 80)) <= 10.
Proof.
  split; [apply pasta_meal_after_reachable |].
  apply (hunger_level_bounded (fst (pasta_meal_after 80))).
  apply pasta_meal_after_reachable.
Defined.

(** X9. In every reachable state the organ timers are non-negative and at most 21 (stomach), 2 (duodenum), 18 (small intestine) and 36 (large intestine). *)
Theorem organ_timers_bounded h b :
  reachable (h, b) ->
  0 <= st_timer (stomach_of b) <= 21 /\
  0 <= du_timer (duodenum_of b) <= TIME_MAP_Duodenum /\
  0 <= si_timer (small_intestine_of b) <= TIME_MAP_SmallIntestine /\
  0 <= li_timer (large_intestine_of b) <= TIME_MAP_LargeIntestine.
Proof. intros R. destruct (reachable_body_inv _ R) as (_ & H). tauto. Qed.

Lemma organ_timers_bounded_witness :
  reachable (fst (pasta_meal_after 10), snd (pasta_meal_after 10)) /\
  let b := snd (pasta_meal_after 10) in
  0 <= st_timer (stomach_of b) <= 21 /\
  0 <= du_timer (duodenum_of b) <= TIME_MAP_Duodenum /\
  0 <= si_timer (small_intestine_of b) <= TIME_MAP_SmallIntestine /\
  0 <= li_timer (large_intestine_of b) <= TIME_MAP_LargeIntestine.
Proof.
  split; [apply pasta_meal_after_reachable |].
  exact (organ_timers_bounded _ _ (pasta_meal_after_reachable 10)).
Defined.

(** X10. In every reachable state the body is idle exactly when it holds no food, so the stop test of [main_loop] holds exactly when the stage is idle. *)
Theorem stop_test_is_idle h b :
  reachable (h, b) ->
  (stage_of b = idle <-> food b = None) /\
  (digestion_complete b = true <-> stage_of b = idle).
Proof.
  intros R. destruct (reachable_body_inv _ R) as (_ & _ & _ & _ & _ & H).
  simpl in H. split; [exact H |]. unfold digestion_complete. revert H.
  destruct (stage_of b), (food b); simpl; intros H; split; intros;
    try reflexivity; try discriminate.
  discriminate (proj1 H eq_refl).
Qed.

Lemma stop_test_is_idle_witness :
  reachable (fst (pasta_meal_after 80), snd (pasta_meal_after 80)) /\
  let b := snd (pasta_meal_after 80) in
  (stage_of b = idle <-> food b = None) /\
  (digestion_complete b = true <-> stage_of b = idle).
Proof.
  split; [apply pasta_meal_after_reachable |].
  exact (stop_test_is_idle _ _ (pasta_meal_after_reachable 80)).
Defined.

(** X11. In every reachable state the progress figures of [main_loop] satisfy 0 < total and 0 <= completed <= total; outside the stomach, completed is the organ total minus the organ timer. *)
Theorem progress_update_bounds h b :
  reachable (h, b) ->
  let '(t, k, _) := progress_update b in
  0 < t /\ 0 <= k <= t /\
  (stage_of b <> stomach -> timed (stage_of b) = true ->
   k = t - organ_timer (stage_of b) b).
Proof.
  intros R. destruct (reachable_body_inv _ R) as (_ & H1 & H2 & H3 & H4 & _).
  cbn [snd] in H1, H2, H3, H4.
  unfold progress_update, organ_progress, organ_timer, SmallIntestine_base_timer,
    Stomach_base_timer.
  unfold TIME_MAP_Duodenum, TIME_MAP_SmallIntestine, TIME_MAP_LargeIntestine,
    TIME_MAP_Stomach in *.
  destruct (stage_of b); cbn -[Z.sub Z.max];
    try (intuition (try lia; try congruence); fail).
  destruct (0 <? st_timer (stomach_of b)) eqn:E; cbn -[Z.sub Z.max]; zbools;
    intuition (try lia; try congruence).
Qed.

Lemma progress_update_bounds_witness :
  reachable (fst (pasta_meal_after 10), snd (pasta_meal_after 10)) /\
  let b := snd (pasta_meal_after 10) in
  let '(t, k, _) := progress_update b in
  0 < t /\ 0 <= k <= t /\
  (stage_of b <> stomach -> timed (stage_of b) = true ->
   k = t - organ_timer (stage_of b) b).
Proof.
  split; [apply pasta_meal_after_reachable |].
  exact (progress_update_bounds _ _ (pasta_meal_after_reachable 10)).
Defined.

(** X12. Whatever ticks, meals and commands follow the creation of a body, the food objects that existed before it are never modified. *)
Theorem caller_foods_untouched h0 h b l :
  reachable_from h0 (h, b) -> (l < next_loc h0)%nat -> read h l = read h0 l.
Proof. intros R Hl. apply (reachable_from_frame _ _ R); exact Hl. Qed.

(** The pasta meal run for 80 ticks over the menu heap. *)

Lemma caller_foods_untouched_witness :
  reachable_from main_heap (fst (pasta_meal_after 80), snd (pasta_meal_after 80)) /\
  (2 < next_loc main_heap)%nat /\
  read (fst (pasta_meal_after 80)) 2%nat = read main_heap 2%nat.
Proof.
  split; [apply pasta_meal_after_reachable_from |]. split; [simpl; lia |].
  apply (caller_foods_untouched main_heap _ (snd (pasta_meal_after 80)));
    [apply pasta_meal_after_reachable_from | simpl; lia].
Defined.

(** X13. [Body.tick] never changes the environment, the conditions or the antibiotic flag. *)
Theorem tick_keeps_settings h b h' b' i :
  tick h b = Some (h', b', i) ->
  env b' = env b /\ cond b' = cond b /\
  antibiotic (microbiome b') = antibiotic (microbiome b).
Proof. intros T. destruct (tick_settings _ _ _ _ _ T) as (A & B & C & _). auto. Qed.

Lemma tick_keeps_settings_witness :
  exists h' b' i, tick (fst pasta_meal) (snd pasta_meal) = Some (h', b', i) /\
    env b' = env (snd pasta_meal) /\ cond b' = cond (snd pasta_meal) /\
    antibiotic (microbiome b') = antibiotic (microbiome (snd pasta_meal)).
Proof.
  eexists _, _, _.
  assert (T : tick (fst pasta_meal) (snd pasta_meal) = Some (_, _, _))
    by (vm_compute; reflexivity).
  split; [exact T | exact (tick_keeps_settings _ _ _ _ _ T)].
Defined.

(** X14. A tick moves the stage one step along mouth, esophagus, stomach, duodenum, small intestine, large intestine, rectum, idle; an idle tick stays idle, and a tick in a timed stage (stomach to large intestine) may also keep that stage. The stage never skips ahead or goes back. *)
Theorem tick_stage_order h b h' b' i :
  tick h b = Some (h', b', i) ->
  stage_of b' = stage_after (stage_of b) \/
  (timed (stage_of b) = true /\ stage_of b' = stage_of b).
Proof. intros T. apply (tick_settings _ _ _ _ _ T). Qed.

Lemma tick_stage_order_witness :
  exists h' b' i, tick (fst pasta_meal) (snd pasta_meal) = Some (h', b', i) /\
    (stage_of b' = stage_after (stage_of (snd pasta_meal)) \/
     (timed (stage_of (snd pasta_meal)) = true /\ stage_of b' = stage_of (snd pasta_meal))).
Proof.
  eexists _, _, _.
  assert (T : tick (fst pasta_meal) (snd pasta_meal) = Some (_, _, _))
    by (vm_compute; reflexivity).
  split; [exact T | exact (tick_stage_order _ _ _ _ _ T)].
Defined.

(** X15. Once leptin is High it stays High across every tick, meal and command, including switching the obesity flag off. *)
Theorem leptin_stays_high s s' :
  sim_step s s' -> leptin (hormones (snd s)) = High -> leptin (hormones (snd s')) = High.
Proof.
  intros St. destruct St as [h b h' b' i T | h b l _ | h b c]; intros H.
  - apply (tick_settings _ _ _ _ _ T). exact H.
  - rewrite eat_leptin. exact H.
  - cbn [snd]. rewrite command_leptin. exact H.
Qed.

Lemma leptin_stays_high_witness :
  sim_step obese_idle_state
    (fst obese_idle_state, apply_command CmdObesity (snd obese_idle_state)) /\
  leptin (hormones (snd obese_idle_state)) = High /\
  obesity (cond (apply_command CmdObesity (snd obese_idle_state))) = false /\
  leptin (hormones (apply_command CmdObesity (snd obese_idle_state))) = High.
Proof.
  assert (S : sim_step obese_idle_state
                (fst obese_idle_state, apply_command CmdObesity (snd obese_idle_state))).
  { rewrite (surjective_pairing obese_idle_state) at 1. apply step_command. }
  split; [exact S |]. split; [vm_compute; reflexivity |].
  split; [vm_compute; reflexivity |].
  apply (leptin_stays_high _ _ S). vm_compute. reflexivity.
Defined.

(** X16. Eating while the stomach still holds a meal with time left does not restart digestion: after the mouth and esophagus ticks, the next tick counts down the old stomach timer on the old stored food. *)
Theorem eat_during_digestion h b l :
  st_food (stomach_of b) <> None -> 0 < st_timer (stomach_of b) ->
  exists h3 b3,
    run_ticks 3 (fst (eat h b l)) (snd (eat h b l)) = Some ([mouth; esophagus; stomach], h3, b3) /\
    stage_of b3 = stomach /\ st_food (stomach_of b3) = st_food (stomach_of b) /\
    st_timer (stomach_of b3) = st_timer (stomach_of b) - 1.
Proof.
  intros Hf Ht.
  destruct (eat_fields h b l) as (A1 & A2 & _).
  destruct (eat_frame h b l) as (_ & _ & A5 & A6).
  set (p := eat h b l) in *. destruct p as [h0 b0]. cbn [fst snd] in *.
  destruct (tick_mouth_step h0 b0 A1) as (h1 & b1 & i1 & T1 & S1 & F1); [congruence |].
  destruct (tick_esophagus_step h1 b1 S1) as (h2 & b2 & i2 & T2 & S2 & _ & F2).
  destruct F1 as (_ & _ & _ & F1a & _ & F1b).
  destruct F2 as (_ & _ & _ & F2a & _ & F2b).
  assert (Tm : organ_timer stomach b2 = st_timer (stomach_of b)).
  { rewrite F2b by discriminate. rewrite F1b by discriminate. rewrite A6. reflexivity. }
  destruct (tick_countdown h2 b2 stomach eq_refl S2) as (b3 & i3 & T3 & S3 & T3b & F3).
  - intros _. congruence.
  - rewrite Tm. exact Ht.
  - exists h2, b3.
    pose proof (run_ticks_seq 1 1 _ _ _ _ _ _ _ _ (run_ticks_one _ _ _ _ _ T1)
                  (run_ticks_one _ _ _ _ _ T2)) as R12.
    pose proof (run_ticks_seq 2 1 _ _ _ _ _ _ _ _ R12 (run_ticks_one _ _ _ _ _ T3)) as R.
    rewrite A1, S1, S2 in R. simpl in R.
    split; [exact R |]. split; [exact S3 |].
    destruct F3 as (_ & _ & _ & F3a & _).
    split; [congruence |].
    change (organ_timer stomach b3 = st_timer (stomach_of b) - 1). rewrite T3b, Tm. reflexivity.
Qed.

Lemma eat_during_digestion_witness :
  st_food (stomach_of (snd (pasta_meal_after 3))) <> None /\
  0 < st_timer (stomach_of (snd (pasta_meal_after 3))) /\
  exists h3 b3,
    run_ticks 3 (fst (eat (fst (pasta_meal_after 3)) (snd (pasta_meal_after 3)) 1%nat))
      (snd (eat (fst (pasta_meal_after 3)) (snd (pasta_meal_after 3)) 1%nat)) =
      Some ([mouth; esophagus; stomach], h3, b3) /\
    stage_of b3 = stomach /\
    st_food (stomach_of b3) = st_food (stomach_of (snd (pasta_meal_after 3))) /\
    st_timer (stomach_of b3) = st_timer (stomach_of (snd (pasta_meal_after 3))) - 1.
Proof.
  assert (H1 : st_food (stomach_of (snd (pasta_meal_after 3))) <> None)
    by (vm_compute; discriminate).
  assert (H2 : 0 < st_timer (stomach_of (snd (pasta_meal_after 3))))
    by (vm_compute; reflexivity).
  split; [exact H1 |]. split; [exact H2 |].
  exact (eat_during_digestion _ _ 1%nat H1 H2).
Defined.

(** X17. A run of n ticks records n stages and raises [total_ticks] by exactly n. *)
Theorem run_ticks_total_ticks n h b l h' b' :
  run_ticks n h b = Some (l, h', b') ->
  total_ticks b' = total_ticks b + Z.of_nat n /\ List.length l = n.
Proof.
  revert h b l. induction n as [| n IH]; intros h b l E.
  - simpl in E. inversion E; subst. simpl. split; [lia | reflexivity].
  - simpl in E. destruct (tick h b) as [[[h1 b1] i] |] eqn:T; [| discriminate].
    destruct (run_ticks n h1 b1) as [[[l1 h2] b2] |] eqn:E1; [| discriminate].
    inversion E; subst. destruct (IH _ _ _ E1) as [A B].
    unfold tick in T.
    destruct (dispatch h (tick_enter b)) as [[[h3 b3] i3] |] eqn:D; [| discriminate].
    inversion T; subst.
    assert (Tt : total_ticks (tick_finish h1 b3) = total_ticks b + 1).
    { assert (Dt : total_ticks b3 = total_ticks (tick_enter b)).
      { destruct (tick_enter b) as [e c mb hs hl en st ps tk tt fd ca me so du si li].
        unfold dispatch in D. simpl in D.
        destruct st; simpl in *; break_in D; inversion D; subst; clear D; open_organs;
          repeat match goal with E : (_, _) = (_, _) |- _ => inversion E; subst; clear E end;
          simpl; try reflexivity.
        unfold set_hunger_from_flags. simpl. destruct (obesity c), (7 <=? hl); reflexivity. }
      destruct b3. simpl in *. rewrite Dt.
      destruct b as [e c mb hs hl en st ps tk tt fd ca me so du si li].
      unfold tick_enter. simpl. destruct (stage_changed _ _); [destruct st |]; reflexivity. }
    simpl. split; [lia | auto].
Qed.

Lemma run_ticks_total_ticks_witness :
  exists l h' b', run_ticks 5 (fst pasta_meal) (snd pasta_meal) = Some (l, h', b') /\
    total_ticks b' = total_ticks (snd pasta_meal) + 5 /\ List.length l = 5%nat.
Proof.
  eexists _, _, _.
  assert (R : run_ticks 5 (fst pasta_meal) (snd pasta_meal) = Some (_, _, _))
    by (vm_compute; reflexivity).
  split; [exact R | exact (run_ticks_total_ticks _ _ _ _ _ _ R)].
Defined.
